(** * Braille console driver: the line buffer, the frame encoder, the
    follow/browse key handling and the device binding of
    [drivers/accessibility/braille/braille_console.c], embedded as functions
    on an explicit driver state. *)

From Stdlib Require Import ZArith Lia Ascii String.
From stdpp Require Import base option list numbers strings gmap.

Local Open Scope Z_scope.

(** ** Machine integers

    C integers are carried as [Z]; the conversions below are applied to the
    results of C arithmetic in that type. *)

(** Conversion to [unsigned char]. *)
Definition to_uchar (z : Z) : Z := z mod 256.

(** Conversion to [u16]. *)
Definition to_u16 (z : Z) : Z := z mod 65536.

Definition INT_MIN : Z := - 2 ^ 31.
Definition INT_MAX : Z := 2 ^ 31 - 1.

(** Conversion to [int] (two's complement, as the kernel is compiled). *)
Definition to_int (z : Z) : Z := (z + 2 ^ 31) mod 2 ^ 32 - 2 ^ 31.

(** Conversion to [short] (two's complement). *)
Definition to_short (z : Z) : Z := (z + 2 ^ 15) mod 2 ^ 16 - 2 ^ 15.

Definition is_int (z : Z) : Prop := INT_MIN <= z <= INT_MAX.
Definition is_u16 (z : Z) : Prop := 0 <= z < 65536.

Global Instance is_int_dec z : Decision (is_int z).
Proof. unfold is_int. apply _. Defined.
Global Typeclasses Opaque is_int.

(** Code of a character literal. *)
Definition ch (a : ascii) : Z := Z.of_nat (nat_of_ascii a).

(** ** Arrays

    A C array is a list; an indexed read or write outside the array has no
    defined behaviour and is a failure ([None]) of the model. *)

Definition load (a : list Z) (i : Z) : option Z :=
  if decide (0 <= i) then a !! Z.to_nat i else None.

Definition store (a : list Z) (i : Z) (v : Z) : option (list Z) :=
  if decide (0 <= i < Z.of_nat (length a))
  then Some (<[Z.to_nat i := v]> a)
  else None.

(** [memset(a, 0, sizeof(a))] on an array of [n] entries. *)
Definition memset0 (n : nat) : list Z := replicate n 0.

(** [memmove(a, &a[1], n * sizeof( *a))]: entries [1..n] move to [0..n-1],
    the rest of the array stays. *)
Definition memmove_down (a : list Z) (n : nat) : list Z :=
  take n (drop 1 a) ++ drop n a.

(** [!memcmp(a, b, n * sizeof( *a))]. *)
Definition memcmp_eq (a b : list Z) (n : nat) : bool :=
  bool_decide (take n a = take n b).

(** [memcpy(dst, src, n * sizeof( *src))]. *)
Definition memcpy (dst src : list Z) (n : nat) : list Z :=
  take n src ++ drop n dst.

(** ** Constants *)

Definition WIDTH : Z := 40.

(** [enum braille_ctrl] *)
Definition SOH : Z := 1.
Definition STX : Z := 2.
Definition ETX : Z := 3.
Definition EOT : Z := 4.
Definition ENQ : Z := 5.

Definition BEEP_HIGH : Z := 880.
Definition BEEP_MED : Z := 440.
Definition BEEP_LOW : Z := 220.

(** Size of the local array [data] of [braille_write]. *)
Definition DATA_SIZE : Z := 1 + 1 + 2 * WIDTH + 2 + 1.

(** ** Collaborator types *)

(** Modelled from the spec: the key codes [KEY_INSERT], [KEY_LEFT], ... are
    macros of [linux/input.h], which is not part of this file; the spec names
    the trigger key and the seven directional keys, every other key takes
    the [default] branch. *)
Inductive keycode :=
  | KEY_INSERT | KEY_LEFT | KEY_RIGHT | KEY_DOWN | KEY_UP
  | KEY_HOME | KEY_PAGEUP | KEY_PAGEDOWN | KEY_OTHER.

Global Instance keycode_eq_dec : EqDecision keycode.
Proof. solve_decision. Defined.

Definition BRAILLE_KEY : keycode := KEY_INSERT.

(** Modelled from the spec: the key symbols tested under [KBD_POST_KEYSYM]
    ([KTYP], [KVAL], [KT_SPEC], [K_CAPS], [K_NUM], [K_HOLD]) come from
    [linux/keyboard.h]; the spec has the three lock toggles, every other
    symbol leaves [on_off] at -1. *)
Inductive keysym := K_CAPS | K_NUM | K_HOLD | K_OTHER.

Inductive led := VC_CAPSLOCK | VC_NUMLOCK | VC_SCROLLOCK.

(** Modelled from the spec: the notifier codes of [linux/notifier.h]. *)
Inductive kbd_code :=
  | KBD_KEYCODE | KBD_UNBOUND_KEYCODE | KBD_UNICODE | KBD_KEYSYM
  | KBD_POST_KEYSYM | KBD_OTHER.

Inductive vt_code := VT_WRITE | VT_UPDATE | VT_OTHER.

(** Modelled from the spec: the notifier results, "handled" ([NOTIFY_STOP])
    or "not handled" ([NOTIFY_OK]). *)
Inductive notify := NOTIFY_OK | NOTIFY_STOP.

(** Modelled from the spec: [struct vc_data] is declared outside this file;
    the driver reads the terminal's number, its grid dimensions and its
    cursor, all integers. *)
Record vc_data := {
  vc_num : Z;
  vc_cols : Z;
  vc_rows : Z;
  state_x : Z;
  state_y : Z;
}.

(** [struct keyboard_notifier_param]; [value] is read as a key code under
    [KBD_KEYCODE] and as a key symbol under [KBD_POST_KEYSYM]. *)
Record keyboard_notifier_param := {
  kp_vc : vc_data;
  kp_down : bool;
  kp_value : keycode;
  kp_keysym : keysym;
}.

(** [struct vt_notifier_param] *)
Record vt_notifier_param := {
  vp_vc : vc_data;
  vp_c : Z;
}.

(** What the driver reads from the terminal layer's own globals. *)
Record env := {
  fg_console : Z;
  vt_get_leds : led -> Z;
}.

(** [struct console], as far as the driver touches it; the kernel header
    declares [flags] and [index] as [short]. The [setup] callback is the
    serial driver's; its result is all that the driver consults. *)
Record console := {
  con_flags : Z;
  con_index : Z;
  con_setup : option (string -> Z);
}.

(** Calls made to collaborators, in the order made. *)
Inductive call :=
  | kd_mksound (freq : Z)
  | vc_maybe_cursor_moved (vc : vc_data)
  | vc_refresh (vc : vc_data)
  | co_write (co : nat) (data : list Z)
  | co_setup (co : nat) (options : string)
  | register_keyboard_notifier
  | register_vt_notifier
  | unregister_keyboard_notifier
  | unregister_vt_notifier.

(** ** Driver state: the file's globals, the [static] cache of
    [braille_write], the memory holding the console structures, and the
    trace of collaborator calls. *)
Record state := {
  sound : bool;
  console_buf : list Z;
  console_cursor : Z;
  vc_view_x : Z;
  vc_view_y : Z;
  lastvc_x : Z;
  lastvc_y : Z;
  console_show : bool;
  console_newline : bool;
  lastVC : Z;
  braille_co : option nat;
  last_write_buf : list Z;
  consoles : gmap nat console;
  trace : list call;
}.

Definition set_console_buf (v : list Z) (s : state) : state :=
  {| sound := sound s; console_buf := v; console_cursor := console_cursor s;
     vc_view_x := vc_view_x s; vc_view_y := vc_view_y s;
     lastvc_x := lastvc_x s; lastvc_y := lastvc_y s;
     console_show := console_show s; console_newline := console_newline s;
     lastVC := lastVC s; braille_co := braille_co s;
     last_write_buf := last_write_buf s; consoles := consoles s;
     trace := trace s |}.

Definition set_console_cursor (v : Z) (s : state) : state :=
  {| sound := sound s; console_buf := console_buf s; console_cursor := v;
     vc_view_x := vc_view_x s; vc_view_y := vc_view_y s;
     lastvc_x := lastvc_x s; lastvc_y := lastvc_y s;
     console_show := console_show s; console_newline := console_newline s;
     lastVC := lastVC s; braille_co := braille_co s;
     last_write_buf := last_write_buf s; consoles := consoles s;
     trace := trace s |}.

Definition set_vc_view_x (v : Z) (s : state) : state :=
  {| sound := sound s; console_buf := console_buf s;
     console_cursor := console_cursor s;
     vc_view_x := v; vc_view_y := vc_view_y s;
     lastvc_x := lastvc_x s; lastvc_y := lastvc_y s;
     console_show := console_show s; console_newline := console_newline s;
     lastVC := lastVC s; braille_co := braille_co s;
     last_write_buf := last_write_buf s; consoles := consoles s;
     trace := trace s |}.

Definition set_vc_view_y (v : Z) (s : state) : state :=
  {| sound := sound s; console_buf := console_buf s;
     console_cursor := console_cursor s;
     vc_view_x := vc_view_x s; vc_view_y := v;
     lastvc_x := lastvc_x s; lastvc_y := lastvc_y s;
     console_show := console_show s; console_newline := console_newline s;
     lastVC := lastVC s; braille_co := braille_co s;
     last_write_buf := last_write_buf s; consoles := consoles s;
     trace := trace s |}.

Definition set_lastvc (x y : Z) (s : state) : state :=
  {| sound := sound s; console_buf := console_buf s;
     console_cursor := console_cursor s;
     vc_view_x := vc_view_x s; vc_view_y := vc_view_y s;
     lastvc_x := x; lastvc_y := y;
     console_show := console_show s; console_newline := console_newline s;
     lastVC := lastVC s; braille_co := braille_co s;
     last_write_buf := last_write_buf s; consoles := consoles s;
     trace := trace s |}.

Definition set_console_show (v : bool) (s : state) : state :=
  {| sound := sound s; console_buf := console_buf s;
     console_cursor := console_cursor s;
     vc_view_x := vc_view_x s; vc_view_y := vc_view_y s;
     lastvc_x := lastvc_x s; lastvc_y := lastvc_y s;
     console_show := v; console_newline := console_newline s;
     lastVC := lastVC s; braille_co := braille_co s;
     last_write_buf := last_write_buf s; consoles := consoles s;
     trace := trace s |}.

Definition set_console_newline (v : bool) (s : state) : state :=
  {| sound := sound s; console_buf := console_buf s;
     console_cursor := console_cursor s;
     vc_view_x := vc_view_x s; vc_view_y := vc_view_y s;
     lastvc_x := lastvc_x s; lastvc_y := lastvc_y s;
     console_show := console_show s; console_newline := v;
     lastVC := lastVC s; braille_co := braille_co s;
     last_write_buf := last_write_buf s; consoles := consoles s;
     trace := trace s |}.

Definition set_lastVC (v : Z) (s : state) : state :=
  {| sound := sound s; console_buf := console_buf s;
     console_cursor := console_cursor s;
     vc_view_x := vc_view_x s; vc_view_y := vc_view_y s;
     lastvc_x := lastvc_x s; lastvc_y := lastvc_y s;
     console_show := console_show s; console_newline := console_newline s;
     lastVC := v; braille_co := braille_co s;
     last_write_buf := last_write_buf s; consoles := consoles s;
     trace := trace s |}.

Definition set_braille_co (v : option nat) (s : state) : state :=
  {| sound := sound s; console_buf := console_buf s;
     console_cursor := console_cursor s;
     vc_view_x := vc_view_x s; vc_view_y := vc_view_y s;
     lastvc_x := lastvc_x s; lastvc_y := lastvc_y s;
     console_show := console_show s; console_newline := console_newline s;
     lastVC := lastVC s; braille_co := v;
     last_write_buf := last_write_buf s; consoles := consoles s;
     trace := trace s |}.

Definition set_last_write_buf (v : list Z) (s : state) : state :=
  {| sound := sound s; console_buf := console_buf s;
     console_cursor := console_cursor s;
     vc_view_x := vc_view_x s; vc_view_y := vc_view_y s;
     lastvc_x := lastvc_x s; lastvc_y := lastvc_y s;
     console_show := console_show s; console_newline := console_newline s;
     lastVC := lastVC s; braille_co := braille_co s;
     last_write_buf := v; consoles := consoles s;
     trace := trace s |}.

Definition set_consoles (v : gmap nat console) (s : state) : state :=
  {| sound := sound s; console_buf := console_buf s;
     console_cursor := console_cursor s;
     vc_view_x := vc_view_x s; vc_view_y := vc_view_y s;
     lastvc_x := lastvc_x s; lastvc_y := lastvc_y s;
     console_show := console_show s; console_newline := console_newline s;
     lastVC := lastVC s; braille_co := braille_co s;
     last_write_buf := last_write_buf s; consoles := v;
     trace := trace s |}.

(** Record one collaborator call. *)
Definition emit (c : call) (s : state) : state :=
  {| sound := sound s; console_buf := console_buf s;
     console_cursor := console_cursor s;
     vc_view_x := vc_view_x s; vc_view_y := vc_view_y s;
     lastvc_x := lastvc_x s; lastvc_y := lastvc_y s;
     console_show := console_show s; console_newline := console_newline s;
     lastVC := lastVC s; braille_co := braille_co s;
     last_write_buf := last_write_buf s; consoles := consoles s;
     trace := trace s ++ [c] |}.

(** The globals as the file initialises them, before any device is bound;
    [snd] is the module parameter, [mem] the console structures that
    exist. *)
Definition initial_state (snd : bool) (mem : gmap nat console) : state :=
  {| sound := snd;
     console_buf := memset0 (Z.to_nat WIDTH);
     console_cursor := 0;
     vc_view_x := 0; vc_view_y := 0; lastvc_x := 0; lastvc_y := 0;
     console_show := true;
     console_newline := true;
     lastVC := -1;
     braille_co := None;
     last_write_buf := memset0 (Z.to_nat WIDTH);
     consoles := mem;
     trace := [] |}.

(** ** Helper functions *)

(** [kd_mksound(freq, HZ/10)]: the duration is the same at every call. *)
Definition beep (freq : Z) (s : state) : state :=
  if sound s then emit (kd_mksound freq) s else s.

Definition refresh_vc (vc : vc_data) (s : state) : state :=
  emit (vc_refresh vc) (emit (vc_maybe_cursor_moved vc) s).

Definition vc_follow_cursor (vc : vc_data) (s : state) : state :=
  let s := set_vc_view_x (to_int (state_x vc - Z.rem (state_x vc) WIDTH)) s in
  let s := set_vc_view_y (to_int (state_y vc)) s in
  set_lastvc (to_int (state_x vc)) (to_int (state_y vc)) s.

(** ** Braille write *)

(** [*data_ptr++ = v] on the local [unsigned char data[]]. *)
Definition put (v : Z) (d : list Z * Z) : option (list Z * Z) :=
  data ← store d.1 d.2 (to_uchar v);
  Some (data, d.2 + 1).

(** The [for] loop of [braille_write], [n] iterations from index [i]; it
    carries the checksum and the output array with its write position. *)
Fixpoint braille_write_loop (n : nat) (i : Z) (buf : list Z)
    (csum : Z) (d : list Z * Z) : option (Z * (list Z * Z)) :=
  match n with
  | O => Some (csum, d)
  | S n' =>
      char_val ← load buf i;
      let char_val :=
        if decide (0x100 <= char_val) then ch "?"
        else if decide (char_val = 0x00) then ch " "
        else char_val in
      let csum := to_uchar (Z.lxor csum char_val) in
      r ← (if decide (char_val <= 0x05)
           then d' ← put SOH d; Some (to_u16 (Z.lor char_val 0x40), d')
           else Some (char_val, d));
      d ← put r.1 r.2;
      braille_write_loop n' (i + 1) buf csum d
  end.

Definition braille_write (buf : list Z) (s : state) : option state :=
  match braille_co s with
  | None => Some s
  | Some co =>
      if memcmp_eq (last_write_buf s) buf (Z.to_nat WIDTH) then Some s
      else
        let s := set_last_write_buf
                   (memcpy (last_write_buf s) buf (Z.to_nat WIDTH)) s in
        let data := replicate (Z.to_nat DATA_SIZE) 0 in
        data ← store data 0 STX;
        data ← store data 1 (ch ">");
        let csum := to_uchar (Z.lxor 0 (ch ">")) in
        r ← braille_write_loop (Z.to_nat WIDTH) 0 buf csum (data, 2);
        let csum := r.1 in
        r ← (if decide (csum <= 0x05)
             then d' ← put SOH r.2; Some (to_uchar (Z.lor csum 0x40), d')
             else Some (csum, r.2));
        d ← put r.1 r.2;
        d ← put ETX d;
        Some (emit (co_write co (take (Z.to_nat d.2) d.1)) s)
  end.

(** ** Keyboard handling *)

Definition handle_console_key (param : keyboard_notifier_param)
    (vc : vc_data) (s : state) : notify * state :=
  if decide (kp_value param = BRAILLE_KEY) then
    let s := set_console_show false s in
    let s := beep BEEP_HIGH s in
    let s := vc_follow_cursor vc s in
    let s := refresh_vc vc s in
    (NOTIFY_STOP, s)
  else
    (NOTIFY_OK, s).

Definition handle_vc_key (param : keyboard_notifier_param)
    (vc : vc_data) (s : state) : option (notify * state) :=
  r ← match kp_value param with
      | KEY_INSERT =>
          let s := beep BEEP_MED s in
          let s := set_console_show true s in
          let s := set_lastVC (-1) s in
          s ← braille_write (console_buf s) s;
          Some (NOTIFY_STOP, s)
      | KEY_LEFT =>
          if decide (vc_view_x s > 0) then
            let s := set_vc_view_x (to_int (vc_view_x s - WIDTH)) s in
            let s := if decide (vc_view_x s < 0)
                     then set_vc_view_x 0 s else s in
            Some (NOTIFY_STOP, s)
          else if decide (vc_view_y s >= 1) then
            let s := beep BEEP_HIGH s in
            let s := set_vc_view_y (to_int (vc_view_y s - 1)) s in
            let s := set_vc_view_x (to_int (vc_cols vc - WIDTH)) s in
            Some (NOTIFY_STOP, s)
          else
            Some (NOTIFY_STOP, beep BEEP_LOW s)
      | KEY_RIGHT =>
          if decide (to_int (vc_view_x s + WIDTH) < vc_cols vc) then
            Some (NOTIFY_STOP,
                  set_vc_view_x (to_int (vc_view_x s + WIDTH)) s)
          else if decide (to_int (vc_view_y s + 1) < vc_rows vc) then
            let s := beep BEEP_HIGH s in
            let s := set_vc_view_y (to_int (vc_view_y s + 1)) s in
            let s := set_vc_view_x 0 s in
            Some (NOTIFY_STOP, s)
          else
            Some (NOTIFY_STOP, beep BEEP_LOW s)
      | KEY_DOWN =>
          if decide (to_int (vc_view_y s + 1) < vc_rows vc) then
            Some (NOTIFY_STOP,
                  set_vc_view_y (to_int (vc_view_y s + 1)) s)
          else
            Some (NOTIFY_STOP, beep BEEP_LOW s)
      | KEY_UP =>
          if decide (vc_view_y s >= 1) then
            Some (NOTIFY_STOP,
                  set_vc_view_y (to_int (vc_view_y s - 1)) s)
          else
            Some (NOTIFY_STOP, beep BEEP_LOW s)
      | KEY_HOME =>
          Some (NOTIFY_STOP, vc_follow_cursor vc s)
      | KEY_PAGEUP =>
          let s := set_vc_view_x 0 s in
          let s := set_vc_view_y 0 s in
          Some (NOTIFY_STOP, s)
      | KEY_PAGEDOWN =>
          let s := set_vc_view_x 0 s in
          let s := set_vc_view_y (to_int (vc_rows vc - 1)) s in
          Some (NOTIFY_STOP, s)
      | KEY_OTHER =>
          Some (NOTIFY_OK, s)
      end;
  Some (r.1, refresh_vc vc r.2).

(** ** Main keyboard notifier *)

Definition keyboard_notifier_call (e : env) (code : kbd_code)
    (param : keyboard_notifier_param) (s : state) : option (notify * state) :=
  let vc := kp_vc param in
  if negb (kp_down param) then Some (NOTIFY_OK, s)
  else
    match code with
    | KBD_KEYCODE =>
        if console_show s
        then Some (handle_console_key param vc s)
        else handle_vc_key param vc s
    | KBD_POST_KEYSYM =>
        let on_off :=
          match kp_keysym param with
          | K_CAPS => vt_get_leds e VC_CAPSLOCK
          | K_NUM => vt_get_leds e VC_NUMLOCK
          | K_HOLD => vt_get_leds e VC_SCROLLOCK
          | K_OTHER => -1
          end in
        if decide (on_off = 1) then Some (NOTIFY_OK, beep BEEP_HIGH s)
        else if decide (on_off = 0) then Some (NOTIFY_OK, beep BEEP_MED s)
        else Some (NOTIFY_OK, s)
    | KBD_UNBOUND_KEYCODE | KBD_UNICODE | KBD_KEYSYM =>
        Some (NOTIFY_OK, s)
    | KBD_OTHER => Some (NOTIFY_OK, s)
    end.

(** ** VT notifier *)

(** The inner [switch (c)] of the [VT_WRITE] case: the line buffer. *)
Definition vt_write_char (c : Z) (s : state) : option state :=
  if decide (c = ch "008" \/ c = 127) then
    if decide (console_cursor s > 0) then
      let s := set_console_cursor (to_int (console_cursor s - 1)) s in
      buf ← store (console_buf s) (console_cursor s) (ch " ");
      Some (set_console_buf buf s)
    else Some s
  else if decide (c = ch "010" \/ c = ch "011" \/ c = ch "012"
                  \/ c = ch "013") then
    Some (set_console_newline true s)
  else
    let c := if decide (c = ch "009") then ch " " else c in
    if decide (c < 32) then Some s
    else
      let s :=
        if console_newline s then
          let s := set_console_buf (memset0 (Z.to_nat WIDTH)) s in
          let s := set_console_cursor 0 s in
          set_console_newline false s
        else s in
      let s :=
        if decide (console_cursor s = WIDTH) then
          set_console_buf
            (memmove_down (console_buf s) (Z.to_nat (WIDTH - 1))) s
        else set_console_cursor (to_int (console_cursor s + 1)) s in
      buf ← store (console_buf s) (to_int (console_cursor s - 1)) c;
      Some (set_console_buf buf s).

Definition vt_notifier_call (e : env) (code : vt_code)
    (param : vt_notifier_param) (s : state) : option (notify * state) :=
  let vc := vp_vc param in
  s ← match code with
      | VT_WRITE =>
          let c := to_uchar (vp_c param) in
          if decide (vc_num vc ≠ fg_console e) then Some s
          else
            s ← vt_write_char c s;
            if console_show s then braille_write (console_buf s) s
            else Some (refresh_vc vc s)
      | VT_UPDATE =>
          if console_show s then
            if decide (vc_num vc ≠ lastVC s) then
              let s := set_lastVC (to_int (vc_num vc)) s in
              let s := set_console_buf (memset0 (Z.to_nat WIDTH)) s in
              let s := set_console_cursor 0 s in
              braille_write (console_buf s) s
            else Some s
          else Some (refresh_vc vc s)
      | VT_OTHER => Some s
      end;
  Some (NOTIFY_OK, s).

(** ** Console registration *)

Section Registration.
(** Constants of [linux/console.h] and of the errno headers, which are
    not part of this file. *)
Variables (CON_ENABLED ENODEV EINVAL : Z).

(** [console->index = index] converts the [int] argument to the field's
    [short]; [console->flags |= CON_ENABLED] needs no conversion, the
    bitwise OR of two values of a type being a value of that type. *)
Definition braille_register_console (console : nat) (index : Z)
    (console_options braille_options : option string) (s : state)
    : option (Z * state) :=
  let console_options := default "57600o8"%string console_options in
  if decide (braille_co s ≠ None) then Some (- ENODEV, s)
  else
    co ← consoles s !! console;
    let '(ret, s) :=
      match con_setup co with
      | Some setup =>
          (setup console_options,
           emit (co_setup console console_options) s)
      | None => (0, s)
      end in
    if decide (ret ≠ 0) then Some (ret, s)
    else
      let co := {| con_flags := Z.lor (con_flags co) CON_ENABLED;
                   con_index := to_short index;
                   con_setup := con_setup co |} in
      let s := set_consoles (<[console := co]> (consoles s)) s in
      let s := set_braille_co (Some console) s in
      let s := emit register_keyboard_notifier s in
      let s := emit register_vt_notifier s in
      Some (1, s).

Definition braille_unregister_console (console : option nat) (s : state)
    : Z * state :=
  if decide (braille_co s ≠ console) then (- EINVAL, s)
  else
    let s := emit unregister_keyboard_notifier s in
    let s := emit unregister_vt_notifier s in
    let s := set_braille_co None s in
    (1, s).
End Registration.

(** ** The wire format, as a function of the line

    These describe the bytes of a frame; the theorems below compare what
    [braille_write] stores into [data] against them. *)

(** The value sent for one cell of the line. *)
Definition substituted (v : Z) : Z :=
  if decide (0x100 <= v) then ch "?"
  else if decide (v = 0) then ch " "
  else v.

(** Running exclusive-or of the command byte and the substituted cells. *)
Definition checksum (buf : list Z) : Z :=
  fold_left Z.lxor (map substituted buf) (ch ">").

(** The bytes sent for one data byte [v] when the values from [lo] to
    [0x05] are the escaped ones. *)
Definition escape (lo : Z) (v : Z) : list Z :=
  if decide (lo <= v <= 0x05) then [SOH; Z.lor v 0x40] else [v].

(** A frame whose cells are escaped on [[1,5]] and whose checksum is escaped
    on [[lo,5]]. *)
Definition frame (lo : Z) (buf : list Z) : list Z :=
  [STX; ch ">"] ++ concat (map (escape 1) (map substituted buf))
    ++ escape lo (checksum buf) ++ [ETX].

(** A line as [braille_write] receives it: [WIDTH] entries of type [u16]. *)
Definition is_line (buf : list Z) : Prop :=
  length buf = Z.to_nat WIDTH /\ Forall is_u16 buf.

Global Instance is_u16_dec v : Decision (is_u16 v).
Proof. unfold is_u16. apply _. Defined.
Global Typeclasses Opaque is_u16.

Global Instance is_line_dec buf : Decision (is_line buf).
Proof. unfold is_line. apply _. Defined.
Global Typeclasses Opaque is_line.

(** The transport writes of a trace, oldest first. *)
Definition writes (t : list call) : list (nat * list Z) :=
  omap (fun c => match c with co_write co d => Some (co, d) | _ => None end) t.

(** ** Event sequences *)

(** One delivery from either notifier chain. *)
Inductive event :=
  | ev_keyboard (e : env) (code : kbd_code) (param : keyboard_notifier_param)
  | ev_vt (e : env) (code : vt_code) (param : vt_notifier_param).

Definition step (ev : event) (s : state) : option state :=
  match ev with
  | ev_keyboard e code param => snd <$> keyboard_notifier_call e code param s
  | ev_vt e code param => snd <$> vt_notifier_call e code param s
  end.

(** Events are handled one after the other, in the order delivered. *)
Fixpoint run (evs : list event) (s : state) : option state :=
  match evs with
  | [] => Some s
  | ev :: evs => s' ← step ev s; run evs s'
  end.

(** The parameter of a key-down of key [k] on terminal [vc]. *)
Definition key_down (vc : vc_data) (k : keycode) : keyboard_notifier_param :=
  {| kp_vc := vc; kp_down := true; kp_value := k; kp_keysym := K_OTHER |}.

Definition press (e : env) (vc : vc_data) (k : keycode) : event :=
  ev_keyboard e KBD_KEYCODE (key_down vc k).

(** Character [c] written to terminal [vc]. *)
Definition wrote (e : env) (vc : vc_data) (c : Z) : event :=
  ev_vt e VT_WRITE {| vp_vc := vc; vp_c := c |}.

Definition is_vt (ev : event) : Prop :=
  match ev with ev_vt _ _ _ => True | ev_keyboard _ _ _ => False end.

(** The line buffer's own invariant: the array has its declared size and
    type, and the cursor stays within [[0, WIDTH]]. *)
Definition line_inv (s : state) : Prop :=
  is_line (console_buf s) /\ 0 <= console_cursor s <= WIDTH.

Global Instance line_inv_dec s : Decision (line_inv s).
Proof. unfold line_inv. apply _. Defined.
Global Typeclasses Opaque line_inv.

(** A character that takes the printable path of the line buffer. *)
Definition printable (c : Z) : Prop := 0x20 <= c <= 0xFF /\ c <> 127.

Global Instance printable_dec c : Decision (printable c).
Proof. unfold printable. apply _. Defined.
Global Typeclasses Opaque printable.

(** The values under which the viewport arithmetic of the pan keys does not
    leave the range of [int], and under which the sums compared with the
    grid dimensions are not negative (the kernel declares the dimensions
    unsigned, so a negative sum would be compared as a large number). *)
Definition pan_in_range (vc : vc_data) (s : state) : Prop :=
  is_int (vc_view_x s) /\ is_int (vc_view_y s) /\
  0 <= vc_view_x s + WIDTH <= INT_MAX /\ 0 <= vc_view_y s + 1 <= INT_MAX /\
  0 <= vc_cols vc <= INT_MAX.

(** The three line-buffer globals, set together. *)
Definition line_upd (buf : list Z) (cursor : Z) (newline : bool)
    (s : state) : state :=
  set_console_newline newline
    (set_console_cursor cursor (set_console_buf buf s)).

Definition line_of (s : state) : list Z * Z * bool :=
  (console_buf s, console_cursor s, console_newline s).

Global Instance pan_in_range_dec vc s : Decision (pan_in_range vc s).
Proof. unfold pan_in_range. apply _. Defined.
Global Typeclasses Opaque pan_in_range.

(** ** Concrete states and inputs used as instances *)

Definition serial0 : console :=
  {| con_flags := 0; con_index := -1; con_setup := None |}.

Definition serial1 : console :=
  {| con_flags := 0; con_index := -1; con_setup := Some (fun _ => 0) |}.

Definition boot_state : state :=
  initial_state true {[ 0%nat := serial0; 1%nat := serial1 ]}.

(** The state after registering console 0 on the boot state (with the
    values the kernel headers give [CON_ENABLED] and [ENODEV]). *)
Definition bound_state : state :=
  (default (0, boot_state)
     (braille_register_console 4 19 0%nat 0 None None boot_state)).2.

Definition tty1 : vc_data :=
  {| vc_num := 0; vc_cols := 80; vc_rows := 25; state_x := 0; state_y := 0 |}.

Definition env0 : env := {| fg_console := 0; vt_get_leds := fun _ => 0 |}.

(** A line whose cells cancel the command byte in the checksum. *)
Definition tilde_at_line : list Z :=
  [ch "~"; ch "@"] ++ replicate 38 0.

Definition digits_line : list Z :=
  map (fun i => ch "0" + Z.of_nat i mod 10) (seq 0 40).

(** Bound, in Following mode, with an empty line and the cursor at 0: an
    "x" was written and erased again. *)
Definition blank_state : state :=
  default bound_state
    (run [wrote env0 tty1 (ch "x"); wrote env0 tty1 (ch "008")] bound_state).

Definition letters41 : list Z :=
  map (fun i => ch "A" + Z.of_nat i) (seq 0 41).

(** The line filled with the first 40 of these letters. *)
Definition full_state : state :=
  default blank_state
    (run (map (wrote env0 tty1) (take 40 letters41)) blank_state).

(** Bound, in Following mode, after "A" was written and sent. *)
Definition typed_state : state :=
  default bound_state (run [wrote env0 tty1 (ch "A")] bound_state).

(** Browsing, with the viewport at the origin. *)
Definition browsing_state : state :=
  default bound_state (run [press env0 tty1 KEY_INSERT] bound_state).

(** ** What handling events may call

    The collaborator calls that an event handler may make from a state in
    which [s] gives the sound parameter and the bound console. *)
Definition call_allowed (s : state) (c : call) : Prop :=
  match c with
  | kd_mksound f =>
      sound s = true /\ (f = BEEP_HIGH \/ f = BEEP_MED \/ f = BEEP_LOW)
  | vc_maybe_cursor_moved _ | vc_refresh _ => True
  | co_write co d =>
      braille_co s = Some co /\ exists buf, is_line buf /\ d = frame 0 buf
  | _ => False
  end.

(** [s'] extends [s]: the trace grew by allowed calls, and the module
    parameter, the binding and the console structures are the same. *)
Definition ext (s s' : state) : Prop :=
  exists new,
    trace s' = trace s ++ new /\ Forall (call_allowed s) new /\
    sound s' = sound s /\ braille_co s' = braille_co s /\
    consoles s' = consoles s.

(** A short session: output, a look around in Browsing mode, and back. *)
Definition session : list event :=
  [wrote env0 tty1 (ch "h"); press env0 tty1 KEY_INSERT;
   press env0 tty1 KEY_LEFT; wrote env0 tty1 (ch "i");
   press env0 tty1 KEY_INSERT].

(** ** Reading a frame back

    The receiving side of the escaping: [SOH] announces a byte whose
    [0x40] bit is to be cleared, any other byte stands for itself. *)
Fixpoint unescape (l : list Z) : list Z :=
  match l with
  | [] => []
  | b :: l' =>
      if decide (b = SOH) then
        match l' with
        | [] => []
        | w :: l'' => Z.ldiff w 0x40 :: unescape l''
        end
      else b :: unescape l'
  end.

(** One data byte on the wire: itself, or [SOH] and a byte of
    [[0x40, 0x45]]. *)
Definition wire_group (g : list Z) : Prop :=
  (exists v, g = [v] /\ 6 <= v < 256) \/
  (exists w, g = [SOH; w] /\ 0x40 <= w <= 0x45).

(** The viewport lies on the terminal's grid. *)
Definition viewport_ok (vc : vc_data) (s : state) : Prop :=
  0 <= vc_view_x s < vc_cols vc /\ 0 <= vc_view_y s < vc_rows vc.

Global Instance viewport_ok_dec vc s : Decision (viewport_ok vc s).
Proof. unfold viewport_ok. apply _. Defined.
Global Typeclasses Opaque viewport_ok.

(** Browsing the 80x25 terminal, the viewport on its last row, and on the
    last column page of its first row. *)
Definition last_row_state : state :=
  default bound_state
    (run [press env0 tty1 KEY_INSERT; press env0 tty1 KEY_PAGEDOWN]
       bound_state).

Definition last_page_state : state :=
  default bound_state
    (run [press env0 tty1 KEY_INSERT; press env0 tty1 KEY_RIGHT] bound_state).

(** A terminal whose cursor stands at column 57 of row 3. *)
Definition tty_57_3 : vc_data :=
  {| vc_num := 0; vc_cols := 80; vc_rows := 25; state_x := 57; state_y := 3 |}.

(** The encoder's cache has its declared size and, in Following mode,
    holds the current line: what the device shows is the line buffer. *)
Definition in_sync (s : state) : Prop :=
  length (last_write_buf s) = Z.to_nat WIDTH /\
  (console_show s = true -> last_write_buf s = console_buf s).

Global Instance in_sync_dec s : Decision (in_sync s).
Proof. unfold in_sync. apply _. Defined.
Global Typeclasses Opaque in_sync.

(** The results the notifier chains get back, with the final state. *)
Fixpoint run_results (evs : list event) (s : state)
    : option (list notify * state) :=
  match evs with
  | [] => Some ([], s)
  | ev :: evs =>
      r ← match ev with
          | ev_keyboard e code param => keyboard_notifier_call e code param s
          | ev_vt e code param => vt_notifier_call e code param s
          end;
      rs ← run_results evs r.2;
      Some (r.1 :: rs.1, rs.2)
  end.

(** A key event that is not a press of the trigger key. *)
Definition ordinary_key (ev : event) : Prop :=
  match ev with
  | ev_keyboard _ KBD_KEYCODE param =>
      kp_down param = false \/ kp_value param <> BRAILLE_KEY
  | _ => False
  end.

(** A line of spaces. *)
Definition spaces_line : list Z := replicate (Z.to_nat WIDTH) (ch " ").

(** Keys typed while Following: two presses and a release. *)
Definition typed_keys : list event :=
  [press env0 tty1 KEY_LEFT; press env0 tty1 KEY_OTHER;
   ev_keyboard env0 KBD_KEYCODE
     {| kp_vc := tty1; kp_down := false; kp_value := KEY_INSERT;
        kp_keysym := K_OTHER |}].

(** A console whose setup rejects every option string. *)
Definition serial_broken : console :=
  {| con_flags := 0; con_index := -1; con_setup := Some (fun _ => -19) |}.

Definition broken_boot_state : state :=
  initial_state false {[ 2%nat := serial_broken ]}.

(** What the line buffer puts into a cell: zero, or a character code from
    space up. *)
Definition cell_ok (v : Z) : Prop := v = 0 \/ 0x20 <= v <= 0xFF.

(** ** Arithmetic of the machine types *)

Lemma to_uchar_id z : 0 <= z < 256 -> to_uchar z = z.
Proof. intros H. unfold to_uchar. apply Z.mod_small. lia. Qed.

Lemma to_u16_id z : 0 <= z < 65536 -> to_u16 z = z.
Proof. intros H. unfold to_u16. apply Z.mod_small. lia. Qed.

Lemma to_int_id z : is_int z -> to_int z = z.
Proof.
  unfold is_int, INT_MIN, INT_MAX, to_int. intros H.
  rewrite Z.mod_small; lia.
Qed.

Lemma lxor_byte a b : 0 <= a < 256 -> 0 <= b < 256 -> 0 <= Z.lxor a b < 256.
Proof.
  intros Ha Hb.
  assert (Hnn : 0 <= Z.lxor a b) by (apply Z.lxor_nonneg; lia).
  split; [exact Hnn |].
  destruct (Z.eq_dec (Z.lxor a b) 0) as [-> | Hne]; [lia |].
  apply (Z.log2_lt_pow2 _ 8); [lia |].
  pose proof (Z.log2_lxor a b ltac:(lia) ltac:(lia)) as Hl.
  assert (Z.log2 a < 8).
  { destruct (Z.eq_dec a 0) as [-> | ?]; [simpl; lia |].
    apply Z.log2_lt_pow2; lia. }
  assert (Z.log2 b < 8).
  { destruct (Z.eq_dec b 0) as [-> | ?]; [simpl; lia |].
    apply Z.log2_lt_pow2; lia. }
  lia.
Qed.

Lemma lor_0x40_small v : 0 <= v <= 5 -> Z.lor v 0x40 = v + 64.
Proof.
  intros H.
  assert (v = 0 \/ v = 1 \/ v = 2 \/ v = 3 \/ v = 4 \/ v = 5) as Hv by lia.
  destruct Hv as [-> | [-> | [-> | [-> | [-> | ->]]]]]; reflexivity.
Qed.

Lemma substituted_range v : is_u16 v -> 1 <= substituted v < 256.
Proof.
  unfold is_u16, substituted. intros H.
  repeat case_decide; change (ch "?") with 63; change (ch " ") with 32; lia.
Qed.

Lemma checksum_fold_range chars c :
  Forall (fun v => 1 <= v < 256) chars -> 0 <= c < 256 ->
  0 <= fold_left Z.lxor chars c < 256.
Proof.
  intros H. revert c. induction H as [| v chars Hv _ IH]; intros c Hc.
  - exact Hc.
  - simpl. apply IH. apply lxor_byte; lia.
Qed.

Lemma checksum_range buf : Forall is_u16 buf -> 0 <= checksum buf < 256.
Proof.
  intros H. unfold checksum. apply checksum_fold_range.
  - rewrite Forall_map. eapply Forall_impl; [exact H |].
    intros v Hv. apply substituted_range, Hv.
  - change (ch ">") with 62. lia.
Qed.

(** ** Arrays *)

Lemma store_app (pre rest : list Z) (x v : Z) :
  store (pre ++ x :: rest) (Z.of_nat (length pre)) v = Some (pre ++ v :: rest).
Proof.
  unfold store. rewrite length_app. simpl length.
  rewrite decide_True by lia.
  rewrite Nat2Z.id.
  replace (length pre) with (length pre + 0)%nat at 1 by lia.
  rewrite insert_app_r. reflexivity.
Qed.

Lemma store_in_bounds (a : list Z) (i v : Z) :
  is_Some (store a i v) <-> 0 <= i < Z.of_nat (length a).
Proof.
  unfold store. case_decide; split; intros H'; try done.
Qed.

Lemma store_length (a a' : list Z) (i v : Z) :
  store a i v = Some a' -> length a' = length a.
Proof.
  unfold store. case_decide; [| discriminate].
  intros [= <-]. apply length_insert.
Qed.

Lemma load_lookup (a : list Z) (i : nat) :
  load a (Z.of_nat i) = a !! i.
Proof. unfold load. rewrite decide_True by lia. by rewrite Nat2Z.id. Qed.

(** [*data_ptr++ = v] appends [v] to what has been written so far and uses
    up one free byte of the array. *)
Lemma put_app (out rest : list Z) (v : Z) :
  0 <= v < 256 -> (1 <= length rest)%nat ->
  put v (out ++ rest, Z.of_nat (length out))
  = Some ((out ++ [v]) ++ drop 1 rest, Z.of_nat (length (out ++ [v]))).
Proof.
  intros Hv Hr. destruct rest as [| x rest]; [simpl in Hr; lia |].
  unfold put. cbn [fst snd]. rewrite store_app. cbn [mbind option_bind].
  rewrite to_uchar_id by exact Hv.
  rewrite length_app. cbn [length drop]. rewrite <- app_assoc. cbn [app].
  do 2 f_equal. lia.
Qed.

(** ** The encoder loop *)

Lemma escape_length lo v : (1 <= length (escape lo v) <= 2)%nat.
Proof. unfold escape. case_decide; simpl; lia. Qed.

Lemma concat_escape_length lo (chars : list Z) :
  (length chars <= length (concat (map (escape lo) chars))
   <= 2 * length chars)%nat.
Proof.
  induction chars as [| v chars IH]; simpl; [lia |].
  rewrite length_app. pose proof (escape_length lo v). lia.
Qed.

(** The escaping step, as it occurs in the loop (on a cell) and after it
    (on the checksum): [cv] is the conversion to the variable's type. *)
Lemma put_escaped {A} (cv : Z -> Z) (lo v : Z) (out rest : list Z)
    (k : list Z * Z -> option A) :
  (forall z, 0 <= z < 256 -> cv z = z) ->
  0 <= lo <= v -> v < 256 -> (2 <= length rest)%nat ->
  ((if decide (v <= 5)
    then d' ← put SOH (out ++ rest, Z.of_nat (length out));
         Some (cv (Z.lor v 64), d')
    else Some (v, (out ++ rest, Z.of_nat (length out))))
   ≫= (fun r => put r.1 r.2 ≫= k))
  = k ((out ++ escape lo v) ++ drop (length (escape lo v)) rest,
       Z.of_nat (length (out ++ escape lo v))).
Proof.
  intros Hcv Hlo Hv Hr. unfold escape.
  destruct (decide (v <= 5)) as [Hle | Hgt].
  - rewrite decide_True by lia.
    rewrite put_app by (unfold SOH; lia).
    cbn [mbind option_bind fst snd].
    rewrite lor_0x40_small by lia.
    rewrite Hcv by lia.
    rewrite put_app.
    + cbn [mbind option_bind].
      rewrite drop_drop, <- !app_assoc. reflexivity.
    + lia.
    + rewrite length_drop. lia.
  - rewrite decide_False by lia.
    cbn [mbind option_bind fst snd].
    rewrite put_app by lia. reflexivity.
Qed.

Lemma braille_write_loop_spec (n : nat) :
  forall (i : nat) (buf : list Z) (csum : Z) (out rest : list Z),
    (i + n <= length buf)%nat ->
    Forall is_u16 buf ->
    0 <= csum < 256 ->
    (2 * n <= length rest)%nat ->
    let chars := map substituted (take n (drop i buf)) in
    let o := concat (map (escape 1) chars) in
    braille_write_loop n (Z.of_nat i) buf csum
      (out ++ rest, Z.of_nat (length out))
    = Some (fold_left Z.lxor chars csum,
            ((out ++ o) ++ drop (length o) rest,
             Z.of_nat (length (out ++ o)))).
Proof.
  induction n as [| n IH]; intros i buf csum out rest Hi Hbuf Hc Hr.
  - simpl. rewrite app_nil_r. reflexivity.
  - destruct (lookup_lt_is_Some_2 buf i ltac:(lia)) as [v Hv].
    assert (Hu : is_u16 v).
    { rewrite Forall_lookup in Hbuf. exact (Hbuf i v Hv). }
    pose proof (substituted_range v Hu) as Hs.
    rewrite (drop_S _ _ _ Hv). cbn [take map concat fold_left].
    cbn [braille_write_loop]. rewrite load_lookup, Hv. cbn [mbind option_bind].
    fold (substituted v).
    assert (Hx : 0 <= Z.lxor csum (substituted v) < 256)
      by (apply lxor_byte; lia).
    rewrite (to_uchar_id _ Hx).
    change 0x05 with 5. change 0x40 with 64.
    rewrite (put_escaped to_u16 1);
      [| intros z Hz; apply to_u16_id; lia | lia | lia | simpl in Hr; lia].
    replace (Z.of_nat i + 1) with (Z.of_nat (S i)) by lia.
    pose proof (escape_length 1 (substituted v)) as Hel.
    rewrite IH; try assumption; try lia.
    + rewrite drop_drop, <- !app_assoc, !length_app.
      rewrite !Nat.add_assoc. reflexivity.
    + rewrite length_drop. simpl in *. lia.
Qed.

(** ** The frame encoder *)

Lemma frame_length_bounds lo (buf : list Z) :
  length buf = Z.to_nat WIDTH ->
  WIDTH + 4 <= Z.of_nat (length (frame lo buf)) <= 2 * WIDTH + 5.
Proof.
  intros Hlen. unfold frame.
  rewrite !length_app. cbn [length].
  pose proof (concat_escape_length 1 (map substituted buf)) as Hc.
  pose proof (escape_length lo (checksum buf)) as He.
  rewrite length_map, Hlen in Hc.
  change (Z.to_nat WIDTH) with 40%nat in Hc. unfold WIDTH. lia.
Qed.

(** What [braille_write] does while a device is bound: nothing when the
    line equals the cached one, else it caches the line and hands the frame
    to the device in one write. *)
Lemma braille_write_bound (s : state) (co : nat) (buf : list Z) :
  braille_co s = Some co -> is_line buf ->
  braille_write buf s
  = Some (if memcmp_eq (last_write_buf s) buf (Z.to_nat WIDTH) then s
          else emit (co_write co (frame 0 buf))
                 (set_last_write_buf
                    (memcpy (last_write_buf s) buf (Z.to_nat WIDTH)) s)).
Proof.
  intros Hco [Hlen Hu16]. unfold braille_write. rewrite Hco.
  destruct (memcmp_eq _ _ _); [reflexivity |].
  change (Z.to_nat WIDTH) with 40%nat in *.
  change (store (replicate (Z.to_nat DATA_SIZE) 0) 0 STX)
    with (Some (STX :: replicate 84 0)).
  cbn [mbind option_bind].
  change (store (STX :: replicate 84 0) 1 (ch ">"))
    with (Some ([STX; ch ">"] ++ replicate 83 0)).
  cbn [mbind option_bind].
  change (braille_write_loop 40 0 buf
            (to_uchar (Z.lxor 0 (ch ">"))) ([STX; ch ">"] ++ replicate 83 0, 2))
    with (braille_write_loop 40 (Z.of_nat 0) buf (ch ">")
            ([STX; ch ">"] ++ replicate 83 0,
             Z.of_nat (length [STX; ch ">"]))).
  rewrite (braille_write_loop_spec 40 0 buf (ch ">") [STX; ch ">"]
             (replicate 83 0));
    [| lia | exact Hu16 | change (ch ">") with 62; lia
     | rewrite length_replicate; lia].
  cbn [mbind option_bind fst snd].
  rewrite drop_0, take_ge by lia.
  fold (checksum buf).
  pose proof (checksum_range buf Hu16) as Hcs.
  set (body := concat (map (escape 1) (map substituted buf))).
  assert (Hbody : (40 <= length body <= 80)%nat).
  { pose proof (concat_escape_length 1 (map substituted buf)) as Hc.
    rewrite length_map, Hlen in Hc. subst body. lia. }
  change 0x05 with 5. change 0x40 with 64.
  rewrite (put_escaped to_uchar 0);
    [| intros z Hz; apply to_uchar_id; lia | lia | lia
     | rewrite length_drop, length_replicate; lia].
  pose proof (escape_length 0 (checksum buf)) as Hel.
  rewrite put_app;
    [| unfold ETX; lia
     | rewrite !length_drop, length_replicate; lia].
  cbn [mbind option_bind fst snd].
  rewrite Nat2Z.id, take_app_length.
  unfold frame. rewrite <- !app_assoc. reflexivity.
Qed.

Lemma memcmp_eq_full (a b : list Z) (n : nat) :
  length a = n -> length b = n ->
  memcmp_eq a b n = bool_decide (a = b).
Proof.
  intros Ha Hb. unfold memcmp_eq.
  rewrite !take_ge by lia. reflexivity.
Qed.

Lemma memcpy_full (dst src : list Z) (n : nat) :
  length dst = n -> length src = n -> memcpy dst src n = src.
Proof.
  intros Ha Hb. unfold memcpy.
  rewrite take_ge, drop_ge by lia. apply app_nil_r.
Qed.

Lemma memcpy_length (dst src : list Z) (n : nat) :
  length dst = n -> length src = n -> length (memcpy dst src n) = n.
Proof. intros Ha Hb. rewrite memcpy_full; assumption. Qed.

Lemma writes_app (t1 t2 : list call) : writes (t1 ++ t2) = writes t1 ++ writes t2.
Proof. unfold writes. apply omap_app. Qed.

(** ** Claims on the frame encoder *)

(** C1 (as the code has it). For a line that is encoded and sent, the frame
    is the start marker, the command byte, the bytes of each substituted
    cell, the bytes of the checksum and the end marker. A cell is sent as
    [SOH] followed by its value with bit [0x40] set exactly when its value
    lies in [[1,5]], and unmodified otherwise; the checksum is sent that way
    exactly when its value lies in [[0,5]], so only a checksum of 0 departs
    from the [[1,5]] rule. *)
Theorem braille_write_escapes (s : state) (co : nat) (buf : list Z) :
  braille_co s = Some co -> is_line buf ->
  memcmp_eq (last_write_buf s) buf (Z.to_nat WIDTH) = false ->
  exists s',
    braille_write buf s = Some s' /\
    trace s' = trace s ++
      [co_write co
         ([STX; ch ">"] ++ concat (map (escape 1) (map substituted buf))
            ++ escape 0 (checksum buf) ++ [ETX])] /\
    (checksum buf <> 0 -> escape 0 (checksum buf) = escape 1 (checksum buf)) /\
    (checksum buf = 0 -> escape 0 (checksum buf) = [SOH; 0x40]).
Proof.
  intros Hco Hline Hne.
  rewrite (braille_write_bound s co buf Hco Hline), Hne.
  eexists. split; [reflexivity |]. split; [reflexivity |].
  pose proof (checksum_range buf (proj2 Hline)) as Hr.
  unfold escape. split.
  - intros Hnz. repeat case_decide; try reflexivity; lia.
  - intros ->. reflexivity.
Qed.

Lemma braille_write_escapes_witness :
  exists s',
    braille_write digits_line bound_state = Some s' /\
    trace s' = trace bound_state ++
      [co_write 0%nat
         ([STX; ch ">"]
            ++ concat (map (escape 1) (map substituted digits_line))
            ++ escape 0 (checksum digits_line) ++ [ETX])] /\
    (checksum digits_line <> 0 ->
     escape 0 (checksum digits_line) = escape 1 (checksum digits_line)) /\
    (checksum digits_line = 0 -> escape 0 (checksum digits_line) = [SOH; 0x40]).
Proof.
  apply (braille_write_escapes bound_state 0%nat digits_line).
  - reflexivity.
  - compute_done.
  - reflexivity.
Defined.

(** C1, as stated, fails: the line "~@" followed by blanks has checksum 0,
    which is outside [[1,5]], yet the frame carries it as [SOH], [0x40]
    rather than as an unmodified 0 byte. *)
Lemma braille_write_escapes_checksum_zero :
  is_line tilde_at_line /\
  checksum tilde_at_line = 0 /\
  ~ (1 <= checksum tilde_at_line <= 5) /\
  exists s',
    braille_write tilde_at_line bound_state = Some s' /\
    trace s' = trace bound_state ++
      [co_write 0%nat
         ([STX; ch ">"; ch "~"; ch "@"] ++ replicate 38 (ch " ")
            ++ [SOH; 0x40; ETX])] /\
    frame 1 tilde_at_line
    = [STX; ch ">"; ch "~"; ch "@"] ++ replicate 38 (ch " ") ++ [0; ETX] /\
    trace s' <> trace bound_state ++ [co_write 0%nat (frame 1 tilde_at_line)].
Proof.
  split; [compute_done |].
  split; [reflexivity |].
  split; [change (checksum tilde_at_line) with 0; lia |].
  eexists. split; [vm_compute; reflexivity |].
  split; [reflexivity |]. split; [reflexivity |].
  vm_compute. discriminate.
Qed.

(** C3. For a line that differs from the previously sent one, the frame
    ends, before the end marker, with the (escaped) exclusive-or of the
    command byte with the 40 substituted cell values; the exclusive-or is
    taken on the values before escaping and fits a byte. *)
Theorem braille_write_checksum (s : state) (co : nat) (buf : list Z) :
  braille_co s = Some co -> is_line buf ->
  memcmp_eq (last_write_buf s) buf (Z.to_nat WIDTH) = false ->
  let csum := fold_left Z.lxor (map substituted buf) (ch ">") in
  exists s' body,
    braille_write buf s = Some s' /\
    trace s' = trace s ++
      [co_write co ([STX; ch ">"] ++ body ++ escape 0 csum ++ [ETX])] /\
    length body = length (concat (map (escape 1) (map substituted buf))) /\
    0 <= csum < 256 /\
    Forall (fun v => v = ch "?" \/ v = ch " " \/ 0 < v < 0x100)
      (map substituted buf).
Proof.
  intros Hco Hline Hne csum.
  rewrite (braille_write_bound s co buf Hco Hline), Hne.
  exists (emit (co_write co (frame 0 buf))
            (set_last_write_buf
               (memcpy (last_write_buf s) buf (Z.to_nat WIDTH)) s)),
         (concat (map (escape 1) (map substituted buf))).
  split; [reflexivity |]. split; [reflexivity |]. split; [reflexivity |].
  split; [exact (checksum_range buf (proj2 Hline)) |].
  rewrite Forall_map. eapply Forall_impl; [exact (proj2 Hline) |].
  intros v Hv. pose proof (substituted_range v Hv). lia.
Qed.

Lemma braille_write_checksum_witness :
  exists s' body,
    braille_write digits_line bound_state = Some s' /\
    trace s' = trace bound_state ++
      [co_write 0%nat
         ([STX; ch ">"] ++ body
            ++ escape 0 (fold_left Z.lxor (map substituted digits_line)
                           (ch ">"))
            ++ [ETX])] /\
    length body
    = length (concat (map (escape 1) (map substituted digits_line))) /\
    0 <= fold_left Z.lxor (map substituted digits_line) (ch ">") < 256 /\
    Forall (fun v => v = ch "?" \/ v = ch " " \/ 0 < v < 0x100)
      (map substituted digits_line).
Proof.
  apply (braille_write_checksum bound_state 0%nat digits_line).
  - reflexivity.
  - compute_done.
  - reflexivity.
Defined.

(** C4 (as the code has it). With a device bound, two calls in a row with
    the same line make at most one transport write: one when the line
    differs from the cached one (the cache starts as all zeros), none when
    it equals it. The second call leaves the state as it is, and so does
    every further call with that line; a line that differs is sent again. *)
Theorem braille_write_twice (s : state) (co : nat) (buf : list Z) :
  braille_co s = Some co -> is_line buf ->
  exists s1,
    braille_write buf s = Some s1 /\
    braille_write buf s1 = Some s1 /\
    writes (trace s1)
    = writes (trace s) ++
        (if memcmp_eq (last_write_buf s) buf (Z.to_nat WIDTH) then []
         else [(co, frame 0 buf)]) /\
    (forall n : nat,
        Nat.iter n (fun o => o ≫= braille_write buf) (Some s1) = Some s1) /\
    (forall buf', is_line buf' -> buf' <> buf ->
        exists s2,
          braille_write buf' s1 = Some s2 /\
          writes (trace s2) = writes (trace s1) ++ [(co, frame 0 buf')]).
Proof.
  intros Hco Hline.
  pose proof Hline as [Hlen Hu].
  rewrite (braille_write_bound s co buf Hco Hline).
  set (s1 := if memcmp_eq (last_write_buf s) buf (Z.to_nat WIDTH) then s
             else emit (co_write co (frame 0 buf))
                    (set_last_write_buf
                       (memcpy (last_write_buf s) buf (Z.to_nat WIDTH)) s)).
  assert (Hco1 : braille_co s1 = Some co).
  { subst s1. destruct (memcmp_eq _ _ _); [exact Hco | exact Hco]. }
  assert (Hlast : take (Z.to_nat WIDTH) (last_write_buf s1) = buf).
  { subst s1. destruct (memcmp_eq _ _ _) eqn:Hc.
    - unfold memcmp_eq in Hc. apply bool_decide_eq_true_1 in Hc.
      rewrite Hc. apply take_ge. lia.
    - cbn [emit set_last_write_buf last_write_buf]. unfold memcpy.
      rewrite take_app_le by (rewrite length_take; lia).
      rewrite take_take, Nat.min_id. apply take_ge. lia. }
  assert (Hsame : braille_write buf s1 = Some s1).
  { rewrite (braille_write_bound s1 co buf Hco1 Hline).
    unfold memcmp_eq. rewrite Hlast, (take_ge buf) by lia.
    rewrite bool_decide_eq_true_2 by reflexivity. reflexivity. }
  exists s1. split; [reflexivity |]. split; [exact Hsame |].
  split; [| split].
  - subst s1. destruct (memcmp_eq _ _ _).
    + rewrite app_nil_r. reflexivity.
    + cbn [emit trace set_last_write_buf]. rewrite writes_app. reflexivity.
  - induction n as [| n IH]; [reflexivity |].
    rewrite Nat.iter_succ, IH. exact Hsame.
  - intros buf' Hline' Hne.
    rewrite (braille_write_bound s1 co buf' Hco1 Hline').
    unfold memcmp_eq at 1. rewrite Hlast, (take_ge buf') by (destruct Hline'; lia).
    rewrite bool_decide_eq_false_2 by congruence.
    eexists. split; [reflexivity |].
    cbn [emit trace set_last_write_buf]. rewrite writes_app. reflexivity.
Qed.

Lemma braille_write_twice_witness :
  exists s1,
    braille_write digits_line bound_state = Some s1 /\
    braille_write digits_line s1 = Some s1 /\
    writes (trace s1)
    = writes (trace bound_state) ++
        (if memcmp_eq (last_write_buf bound_state) digits_line
              (Z.to_nat WIDTH)
         then [] else [(0%nat, frame 0 digits_line)]) /\
    (forall n : nat,
        Nat.iter n (fun o => o ≫= braille_write digits_line) (Some s1)
        = Some s1) /\
    (forall buf', is_line buf' -> buf' <> digits_line ->
        exists s2,
          braille_write buf' s1 = Some s2 /\
          writes (trace s2) = writes (trace s1) ++ [(0%nat, frame 0 buf')]).
Proof.
  apply (braille_write_twice bound_state 0%nat digits_line).
  - reflexivity.
  - compute_done.
Defined.

(** C4, as stated, fails: right after binding, the cache and the all-zero
    line coincide, and two calls with that line make no transport write at
    all, not one. *)
Lemma braille_write_twice_zero_line :
  braille_co bound_state = Some 0%nat /\
  is_line (memset0 (Z.to_nat WIDTH)) /\
  exists s1 s2,
    braille_write (memset0 (Z.to_nat WIDTH)) bound_state = Some s1 /\
    braille_write (memset0 (Z.to_nat WIDTH)) s1 = Some s2 /\
    writes (trace s2) = writes (trace bound_state) /\
    length (writes (trace s2)) <> S (length (writes (trace bound_state))).
Proof.
  split; [reflexivity |].
  split; [compute_done |].
  exists bound_state, bound_state.
  split; [vm_compute; reflexivity |].
  split; [vm_compute; reflexivity |].
  split; [reflexivity |]. vm_compute. discriminate.
Qed.



(** ** The line buffer *)

Ltac ch_eval :=
  change (ch "008") with 8 in *; change (ch "009") with 9 in *;
  change (ch "010") with 10 in *; change (ch "011") with 11 in *;
  change (ch "012") with 12 in *; change (ch "013") with 13 in *;
  change (ch " ") with 32 in *.

(** Unfold the setters down to record literals over the fields of the
    original state. *)
Ltac state_unfold :=
  unfold line_upd, set_console_buf, set_console_cursor, set_vc_view_x,
    set_vc_view_y, set_lastvc, set_console_show, set_console_newline,
    set_lastVC, set_braille_co, set_last_write_buf, set_consoles, emit in *;
  cbn [sound console_buf console_cursor vc_view_x vc_view_y lastvc_x
       lastvc_y console_show console_newline lastVC braille_co
       last_write_buf consoles trace] in *.

(** Reduce projections of updated states, without unfolding the updates
    anywhere else. *)
Ltac proj_simpl :=
  cbn [sound console_buf console_cursor vc_view_x vc_view_y lastvc_x
       lastvc_y console_show console_newline lastVC braille_co
       last_write_buf consoles trace
       line_upd set_console_buf set_console_cursor set_vc_view_x
       set_vc_view_y set_lastvc set_console_show set_console_newline
       set_lastVC set_braille_co set_last_write_buf set_consoles emit
       refresh_vc vc_follow_cursor line_of] in *.

Ltac beep_cases s :=
  unfold beep in *; proj_simpl; destruct (sound s); proj_simpl.

Lemma width_nat : Z.to_nat WIDTH = 40%nat.
Proof. reflexivity. Qed.

Lemma is_line_memset0 : is_line (memset0 (Z.to_nat WIDTH)).
Proof.
  split; [apply length_replicate |].
  apply Forall_replicate. unfold is_u16. lia.
Qed.

Lemma is_line_insert (buf : list Z) (i : nat) (v : Z) :
  is_line buf -> is_u16 v -> is_line (<[i := v]> buf).
Proof.
  intros [Hlen Hu] Hv. split.
  - rewrite length_insert. exact Hlen.
  - apply Forall_insert; assumption.
Qed.

Lemma is_line_slide (buf : list Z) (v : Z) :
  is_line buf -> is_u16 v -> is_line (drop 1 buf ++ [v]).
Proof.
  intros [Hlen Hu] Hv. rewrite width_nat in Hlen. split.
  - rewrite width_nat, length_app, length_drop. simpl. lia.
  - apply Forall_app. split; [apply Forall_drop, Hu |].
    constructor; [exact Hv | constructor].
Qed.

(** With the array full, [memmove] followed by the store into the last
    cell drops the first cell and appends the character. *)
Lemma store_after_memmove (buf : list Z) (c : Z) :
  length buf = 40%nat ->
  store (memmove_down buf 39) 39 c = Some (drop 1 buf ++ [c]).
Proof.
  intros Hlen. unfold memmove_down.
  rewrite (take_ge (drop 1 buf)) by (rewrite length_drop; lia).
  destruct (drop 39 buf) as [| x [| y l]] eqn:Hd;
    apply (f_equal length) in Hd; rewrite length_drop, Hlen in Hd;
    simpl in Hd; try lia.
  replace 39 with (Z.of_nat (length (drop 1 buf)))
    by (rewrite length_drop; lia).
  apply store_app.
Qed.

Lemma vt_write_char_printable (c : Z) (s : state) :
  printable c -> length (console_buf s) = Z.to_nat WIDTH ->
  0 <= console_cursor s <= WIDTH ->
  vt_write_char c s
  = Some (let buf := if console_newline s then memset0 (Z.to_nat WIDTH)
                     else console_buf s in
          let cur := if console_newline s then 0 else console_cursor s in
          if decide (cur = WIDTH)
          then line_upd (drop 1 buf ++ [c]) WIDTH false s
          else line_upd (<[Z.to_nat cur := c]> buf) (cur + 1) false s).
Proof.
  intros [Hc H127] Hlen Hcur. unfold vt_write_char. ch_eval.
  rewrite width_nat in *. unfold WIDTH in *.
  rewrite decide_False by lia. rewrite decide_False by lia.
  rewrite (decide_False (P := c = 9)) by lia.
  rewrite decide_False by lia.
  destruct (console_newline s) eqn:Hnl; cbn zeta.
  - cbn [set_console_buf set_console_cursor set_console_newline
         console_cursor console_buf].
    rewrite (decide_False (P := 0 = 40)) by lia.
    cbn [set_console_buf set_console_cursor set_console_newline
         console_cursor console_buf].
    change (to_int (0 + 1)) with 1. change (to_int (1 - 1)) with 0.
    reflexivity.
  - destruct (decide (console_cursor s = 40)) as [Heq | Hneq].
    + cbn [set_console_buf console_cursor console_buf]. rewrite Heq.
      change (Z.to_nat (40 - 1)) with 39%nat.
      change (to_int (40 - 1)) with 39.
      rewrite store_after_memmove by exact Hlen.
      cbn [mbind option_bind]. state_unfold.
      rewrite Heq, Hnl. reflexivity.
    + cbn [set_console_cursor console_cursor console_buf].
      rewrite (to_int_id (console_cursor s + 1))
        by (unfold is_int, INT_MIN, INT_MAX; lia).
      replace (console_cursor s + 1 - 1) with (console_cursor s) by lia.
      rewrite (to_int_id (console_cursor s))
        by (unfold is_int, INT_MIN, INT_MAX; lia).
      unfold store. rewrite decide_True by lia.
      cbn [mbind option_bind]. state_unfold.
      rewrite Hnl. reflexivity.
Qed.

Lemma line_upd_id (s : state) :
  line_upd (console_buf s) (console_cursor s) (console_newline s) s = s.
Proof. destruct s. reflexivity. Qed.

Lemma vt_write_char_tab (s : state) :
  vt_write_char (ch "009") s = vt_write_char (ch " ") s.
Proof. reflexivity. Qed.

Lemma vt_write_char_backspace (c : Z) (s : state) :
  c = ch "008" \/ c = 127 ->
  length (console_buf s) = Z.to_nat WIDTH ->
  0 <= console_cursor s <= WIDTH ->
  vt_write_char c s
  = Some (if decide (console_cursor s > 0)
          then line_upd
                 (<[Z.to_nat (console_cursor s - 1) := ch " "]> (console_buf s))
                 (console_cursor s - 1) (console_newline s) s
          else s).
Proof.
  intros Hc Hlen Hcur. unfold vt_write_char.
  rewrite decide_True by exact Hc.
  rewrite width_nat in Hlen. unfold WIDTH in Hcur.
  destruct (decide (console_cursor s > 0)); [| reflexivity].
  cbn [set_console_cursor console_cursor console_buf].
  rewrite to_int_id by (unfold is_int, INT_MIN, INT_MAX; lia).
  unfold store. rewrite decide_True by lia.
  reflexivity.
Qed.

Lemma vt_write_char_newline (c : Z) (s : state) :
  c = ch "010" \/ c = ch "011" \/ c = ch "012" \/ c = ch "013" ->
  vt_write_char c s = Some (set_console_newline true s).
Proof.
  intros Hc. unfold vt_write_char.
  rewrite decide_False by (ch_eval; lia).
  rewrite decide_True by exact Hc. reflexivity.
Qed.

Lemma vt_write_char_ignored (c : Z) (s : state) :
  c < 32 -> c <> ch "008" -> c <> ch "009" ->
  ~ (c = ch "010" \/ c = ch "011" \/ c = ch "012" \/ c = ch "013") ->
  vt_write_char c s = Some s.
Proof.
  intros Hlt H8 H9 Hnl. unfold vt_write_char.
  rewrite decide_False by (ch_eval; lia).
  rewrite decide_False by exact Hnl.
  rewrite (decide_False (P := c = ch "009")) by exact H9.
  rewrite decide_True by exact Hlt. reflexivity.
Qed.

(** Every character leaves the line buffer well-formed, and touches the
    three line-buffer globals only. *)
Lemma vt_write_char_shape (c : Z) (s : state) :
  0 <= c < 256 -> line_inv s ->
  exists buf cur nl,
    vt_write_char c s = Some (line_upd buf cur nl s) /\
    is_line buf /\ 0 <= cur <= WIDTH.
Proof.
  intros Hc [[Hlen Hu] Hcur].
  assert (Hkeep : exists buf cur nl,
             Some s = Some (line_upd buf cur nl s) /\
             is_line buf /\ 0 <= cur <= WIDTH).
  { exists (console_buf s), (console_cursor s), (console_newline s).
    rewrite line_upd_id. repeat split; assumption || lia. }
  assert (Hprint : forall c', printable c' ->
             exists buf cur nl,
               vt_write_char c' s = Some (line_upd buf cur nl s) /\
               is_line buf /\ 0 <= cur <= WIDTH).
  { intros c' Hp. rewrite (vt_write_char_printable c' s Hp Hlen Hcur).
    assert (Hu' : is_u16 c') by (destruct Hp; unfold is_u16; lia).
    assert (Hb : is_line (if console_newline s
                          then memset0 (Z.to_nat WIDTH) else console_buf s)).
    { destruct (console_newline s); [apply is_line_memset0 | by split]. }
    cbn zeta. case_decide.
    - eexists _, _, _. split; [reflexivity |].
      split; [by apply is_line_slide | unfold WIDTH; lia].
    - eexists _, _, _. split; [reflexivity |].
      split; [by apply is_line_insert |].
      destruct (console_newline s); unfold WIDTH in *; lia. }
  destruct (decide (c = ch "008" \/ c = 127)) as [Hbs | Hnbs].
  { rewrite (vt_write_char_backspace c s Hbs Hlen Hcur).
    case_decide; [| exact Hkeep].
    eexists _, _, _. split; [reflexivity |].
    split; [| lia].
    apply is_line_insert; [by split | ch_eval; unfold is_u16; lia]. }
  destruct (decide (c = ch "010" \/ c = ch "011" \/ c = ch "012"
                    \/ c = ch "013")) as [Hnl | Hnnl].
  { rewrite (vt_write_char_newline c s Hnl).
    exists (console_buf s), (console_cursor s), true.
    split; [reflexivity |]. by split. }
  destruct (decide (c = ch "009")) as [-> | Htab].
  { rewrite vt_write_char_tab. apply Hprint. ch_eval. split; lia. }
  destruct (decide (c < 32)) as [Hlt | Hge].
  { rewrite vt_write_char_ignored; [exact Hkeep | lia | | exact Htab | exact Hnnl].
    intros ->. apply Hnbs. by left. }
  apply Hprint. split; [lia |]. intros ->. apply Hnbs. by right.
Qed.

(** ** What the encoder and the handlers leave alone *)

Lemma braille_write_cases (buf : list Z) (s : state) :
  is_line buf ->
  braille_write buf s = Some s \/
  exists co,
    braille_co s = Some co /\
    memcmp_eq (last_write_buf s) buf (Z.to_nat WIDTH) = false /\
    braille_write buf s
    = Some (emit (co_write co (frame 0 buf))
              (set_last_write_buf
                 (memcpy (last_write_buf s) buf (Z.to_nat WIDTH)) s)).
Proof.
  intros Hline. destruct (braille_co s) as [co |] eqn:Hco.
  - rewrite (braille_write_bound s co buf Hco Hline).
    destruct (memcmp_eq _ _ _) eqn:Hc; [by left |].
    right. exists co. by repeat split.
  - left. unfold braille_write. by rewrite Hco.
Qed.

(** [braille_write] changes the cache and the trace only. *)
Lemma braille_write_frame (buf : list Z) (s : state) :
  is_line buf ->
  exists s',
    braille_write buf s = Some s' /\
    line_of s' = line_of s /\
    console_show s' = console_show s /\
    braille_co s' = braille_co s /\
    lastVC s' = lastVC s.
Proof.
  intros Hline.
  destruct (braille_write_cases buf s Hline) as [-> | (co & _ & _ & ->)];
    eexists; (split; [reflexivity |]); by repeat split.
Qed.

Lemma line_inv_ext (s s' : state) :
  line_of s' = line_of s -> line_inv s -> line_inv s'.
Proof.
  unfold line_of, line_inv. intros [= -> -> _] H. exact H.
Qed.

(** Key events never touch the line buffer. *)
Lemma keyboard_notifier_call_line e code param (s : state) :
  is_line (console_buf s) ->
  exists r s',
    keyboard_notifier_call e code param s = Some (r, s') /\
    line_of s' = line_of s.
Proof.
  intros Hline. unfold keyboard_notifier_call.
  destruct (kp_down param); cbn [negb];
    [| eexists _, _; split; reflexivity].
  destruct code; try (eexists _, _; split; reflexivity).
  - destruct (console_show s) eqn:Hshow.
    + unfold handle_console_key.
      case_decide; (eexists _, _; split; [reflexivity |]);
        [beep_cases s |]; reflexivity.
    + unfold handle_vc_key.
      destruct (kp_value param);
        try (repeat case_decide; cbn [mbind option_bind fst snd];
             (eexists _, _; split; [reflexivity |]);
             beep_cases s; reflexivity).
      set (t := set_lastVC (-1) (set_console_show true (beep BEEP_MED s))).
      assert (Hlt : line_of t = line_of s)
        by (subst t; beep_cases s; reflexivity).
      assert (Hline' : is_line (console_buf t))
        by (change (console_buf t) with (line_of t).1.1;
            rewrite Hlt; exact Hline).
      destruct (braille_write_frame (console_buf t) t Hline')
        as (s' & Hw & Hl & _).
      rewrite Hw. eexists _, _. split; [reflexivity |].
      cbn [mbind option_bind fst snd].
      transitivity (line_of s'); [reflexivity |].
      rewrite Hl. exact Hlt.
  - repeat case_decide; (eexists _, _; split; [reflexivity |]);
      try (beep_cases s); reflexivity.
Qed.

(** Terminal events keep the line buffer well-formed. *)
Lemma vt_notifier_call_line_inv e code param (s : state) :
  line_inv s ->
  exists s',
    vt_notifier_call e code param s = Some (NOTIFY_OK, s') /\ line_inv s'.
Proof.
  intros Hinv. unfold vt_notifier_call. destruct code.
  - case_decide; [by eexists |].
    destruct (vt_write_char_shape (to_uchar (vp_c param)) s)
      as (buf & cur & nl & -> & Hb & Hc); [| exact Hinv |].
    { unfold to_uchar. apply Z.mod_pos_bound. lia. }
    cbn [mbind option_bind].
    change (console_show (line_upd buf cur nl s)) with (console_show s).
    destruct (console_show s).
    + destruct (braille_write_frame (console_buf (line_upd buf cur nl s))
                  (line_upd buf cur nl s) Hb) as (s' & -> & Hl & _).
      eexists. split; [reflexivity |].
      apply (line_inv_ext _ _ Hl). by split.
    + eexists. split; [reflexivity |]. by split.
  - destruct (console_show s); [| by eexists].
    case_decide; [| by eexists].
    edestruct (braille_write_frame) as (s' & -> & Hl & _);
      [| eexists; split; [reflexivity |]; apply (line_inv_ext _ _ Hl)].
    + apply is_line_memset0.
    + split; [apply is_line_memset0 | cbn; unfold WIDTH; lia].
  - by eexists.
Qed.

Lemma step_line_inv (ev : event) (s : state) :
  line_inv s -> exists s', step ev s = Some s' /\ line_inv s'.
Proof.
  intros Hinv. destruct ev as [e code param | e code param]; cbn [step].
  - destruct (keyboard_notifier_call_line e code param s (proj1 Hinv))
      as (r & s' & -> & Hl).
    exists s'. split; [reflexivity |]. exact (line_inv_ext _ _ Hl Hinv).
  - destruct (vt_notifier_call_line_inv e code param s Hinv)
      as (s' & -> & Hinv').
    by exists s'.
Qed.

Lemma run_line_inv (evs : list event) :
  forall s, line_inv s -> exists s', run evs s = Some s' /\ line_inv s'.
Proof.
  induction evs as [| ev evs IH]; intros s Hinv; cbn [run].
  - by exists s.
  - destruct (step_line_inv ev s Hinv) as (s1 & -> & Hinv1).
    cbn [mbind option_bind]. exact (IH s1 Hinv1).
Qed.

Lemma run_app (evs1 evs2 : list event) (s : state) :
  run (evs1 ++ evs2) s = run evs1 s ≫= run evs2.
Proof.
  revert s. induction evs1 as [| ev evs1 IH]; intros s; cbn [run app].
  - reflexivity.
  - destruct (step ev s) as [s1 |]; cbn [mbind option_bind]; [apply IH | reflexivity].
Qed.

Lemma line_inv_initial snd mem co :
  line_inv (set_braille_co co (initial_state snd mem)).
Proof.
  split; [apply is_line_memset0 | cbn; unfold WIDTH; lia].
Qed.

(** ** Claims on the line buffer *)

(** C9. From the initial state, whatever events are delivered, every one
    of them is handled without an access outside [console_buf] (the run
    succeeds; a store outside the array is the only way to fail), and the
    cursor stays within [[0, WIDTH]]; in the state reached, a further
    [VT_WRITE] again succeeds and keeps the cursor in that range. *)
Theorem vt_write_cursor_in_bounds (snd : bool) (mem : gmap nat console)
    (co : option nat) (evs : list event) :
  exists s,
    run evs (set_braille_co co (initial_state snd mem)) = Some s /\
    0 <= console_cursor s <= WIDTH /\
    length (console_buf s) = Z.to_nat WIDTH /\
    forall e param,
      exists s',
        vt_notifier_call e VT_WRITE param s = Some (NOTIFY_OK, s') /\
        0 <= console_cursor s' <= WIDTH /\
        length (console_buf s') = Z.to_nat WIDTH.
Proof.
  destruct (run_line_inv evs _ (line_inv_initial snd mem co))
    as (s & Hrun & Hinv).
  exists s. split; [exact Hrun |].
  split; [exact (proj2 Hinv) |]. split; [exact (proj1 (proj1 Hinv)) |].
  intros e param.
  destruct (vt_notifier_call_line_inv e VT_WRITE param s Hinv)
    as (s' & Hs' & Hinv').
  exists s'. split; [exact Hs' |].
  split; [exact (proj2 Hinv') | exact (proj1 (proj1 Hinv'))].
Qed.

(** A character written to the foreground terminal updates the line buffer
    as [vt_write_char] says; what follows (the frame or the refresh) leaves
    the line buffer alone. *)
Lemma step_wrote e vc (c : Z) (s : state) buf cur nl :
  vc_num vc = fg_console e ->
  vt_write_char (to_uchar c) s = Some (line_upd buf cur nl s) ->
  is_line buf ->
  exists s', step (wrote e vc c) s = Some s' /\ line_of s' = (buf, cur, nl).
Proof.
  intros Hfg Hw Hline. cbn [step wrote]. unfold vt_notifier_call.
  cbn [vp_vc vp_c]. rewrite decide_False by (intros H; apply H, Hfg).
  rewrite Hw. cbn [mbind option_bind].
  change (console_show (line_upd buf cur nl s)) with (console_show s).
  destruct (console_show s).
  - destruct (braille_write_frame (console_buf (line_upd buf cur nl s))
                (line_upd buf cur nl s) Hline) as (s' & -> & Hl & _).
    exists s'. split; [reflexivity | exact Hl].
  - eexists. split; reflexivity.
Qed.

Lemma step_wrote_printable e vc (c : Z) (s : state) :
  vc_num vc = fg_console e -> printable c -> line_inv s ->
  console_newline s = false ->
  exists s',
    step (wrote e vc c) s = Some s' /\
    line_of s'
    = if decide (console_cursor s = WIDTH)
      then (drop 1 (console_buf s) ++ [c], WIDTH, false)
      else (<[Z.to_nat (console_cursor s) := c]> (console_buf s),
            console_cursor s + 1, false).
Proof.
  intros Hfg Hp [Hline Hcur] Hnl.
  assert (Hu : is_u16 c) by (destruct Hp; unfold is_u16; lia).
  assert (Hc : to_uchar c = c) by (apply to_uchar_id; destruct Hp; lia).
  pose proof (vt_write_char_printable c s Hp (proj1 Hline) Hcur) as Hw.
  rewrite Hnl in Hw. cbn zeta in Hw. rewrite <- Hc in Hw at 1.
  case_decide.
  - apply (step_wrote e vc c s _ _ _ Hfg Hw). by apply is_line_slide.
  - apply (step_wrote e vc c s _ _ _ Hfg Hw). by apply is_line_insert.
Qed.

(** Printable characters fill the line from the cursor on. *)
Lemma feed_fill e vc (cs : list Z) :
  vc_num vc = fg_console e -> Forall printable cs ->
  forall (s : state) (k : nat),
    line_inv s -> console_newline s = false ->
    console_cursor s = Z.of_nat k ->
    (k + length cs <= 40)%nat ->
    exists s',
      run (map (wrote e vc) cs) s = Some s' /\
      line_of s'
      = (take k (console_buf s) ++ cs ++ drop (k + length cs) (console_buf s),
         Z.of_nat (k + length cs), false).
Proof.
  intros Hfg Hcs. induction Hcs as [| c cs Hc Hcs IH]; intros s k Hinv Hnl Hk Hle.
  - exists s. split; [reflexivity |]. cbn [app length].
    rewrite Nat.add_0_r, take_drop. unfold line_of. by rewrite Hnl, Hk.
  - cbn [map run length] in *.
    destruct (step_wrote_printable e vc c s Hfg Hc Hinv Hnl)
      as (s1 & -> & Hl1).
    rewrite decide_False in Hl1 by (unfold WIDTH; lia).
    injection Hl1 as Hb1 Hc1 Hn1.
    cbn [mbind option_bind].
    pose proof Hinv as [[Hlen Hu] _]. rewrite width_nat in Hlen.
    assert (Hinv1 : line_inv s1).
    { split.
      - rewrite Hb1. apply is_line_insert; [apply Hinv |].
        destruct Hc; unfold is_u16; lia.
      - unfold WIDTH. lia. }
    destruct (IH s1 (S k) Hinv1 Hn1 ltac:(lia) ltac:(lia)) as (s' & -> & Hl').
    exists s'. split; [reflexivity |]. rewrite Hl', Hb1, Hk, Nat2Z.id.
    f_equal. f_equal; [| lia].
    rewrite drop_insert_lt by lia.
    rewrite (take_S_r _ k c) by (apply list_lookup_insert_eq; lia).
    rewrite take_insert_ge by lia.
    rewrite <- app_assoc. cbn [app].
    replace (S k + length cs)%nat with (k + S (length cs))%nat by lia.
    reflexivity.
Qed.

(** With the line full, printable characters slide it to the left. *)
Lemma feed_slide e vc (cs : list Z) :
  vc_num vc = fg_console e -> Forall printable cs ->
  forall (s : state),
    line_inv s -> console_newline s = false ->
    console_cursor s = WIDTH ->
    exists s',
      run (map (wrote e vc) cs) s = Some s' /\
      line_of s' = (drop (length cs) (console_buf s ++ cs), WIDTH, false).
Proof.
  intros Hfg Hcs. induction Hcs as [| c cs Hc Hcs IH]; intros s Hinv Hnl Hk.
  - exists s. split; [reflexivity |]. cbn [length drop].
    rewrite app_nil_r. unfold line_of. by rewrite Hnl, Hk.
  - cbn [map run length].
    destruct (step_wrote_printable e vc c s Hfg Hc Hinv Hnl)
      as (s1 & -> & Hl1).
    rewrite decide_True in Hl1 by exact Hk.
    injection Hl1 as Hb1 Hc1 Hn1.
    cbn [mbind option_bind].
    pose proof Hinv as [[Hlen Hu] _]. rewrite width_nat in Hlen.
    assert (Hinv1 : line_inv s1).
    { split.
      - rewrite Hb1. apply is_line_slide; [apply Hinv |].
        destruct Hc; unfold is_u16; lia.
      - rewrite Hc1. unfold WIDTH. lia. }
    destruct (IH s1 Hinv1 Hn1 Hc1) as (s' & -> & Hl').
    exists s'. split; [reflexivity |]. rewrite Hl', Hb1.
    do 2 f_equal.
    rewrite <- app_assoc. cbn [app].
    rewrite <- (drop_app_le _ (c :: cs)) by lia.
    rewrite drop_drop. f_equal.
Qed.

(** C5. From a line with the cursor at 0 and no pending newline, 41
    printable characters leave the last 40 of them in the line, the cursor
    at [WIDTH]; and whenever the cursor is at [WIDTH] (no newline pending),
    a printable character drops the first cell, appends itself and leaves
    the cursor at [WIDTH]. *)
Theorem sliding_window e vc (s : state) (cs : list Z) (s2 : state) (c : Z) :
  vc_num vc = fg_console e ->
  is_line (console_buf s) -> console_cursor s = 0 ->
  console_newline s = false ->
  length cs = S (Z.to_nat WIDTH) -> Forall printable cs ->
  is_line (console_buf s2) -> console_cursor s2 = WIDTH ->
  console_newline s2 = false -> printable c ->
  (exists s',
      run (map (wrote e vc) cs) s = Some s' /\
      console_buf s' = drop 1 cs /\ console_cursor s' = WIDTH) /\
  (exists s',
      step (wrote e vc c) s2 = Some s' /\
      console_buf s' = drop 1 (console_buf s2) ++ [c] /\
      console_cursor s' = WIDTH).
Proof.
  intros Hfg Hline Hcur Hnl Hlen Hcs Hline2 Hcur2 Hnl2 Hc.
  rewrite width_nat in Hlen. split.
  - replace (map (wrote e vc) cs)
      with (map (wrote e vc) (take 40 cs ++ drop 40 cs))
      by (by rewrite take_drop).
    rewrite map_app, run_app.
    destruct (feed_fill e vc (take 40 cs) Hfg (Forall_take _ 40%nat _ Hcs) s 0%nat)
      as (s1 & -> & Hl1).
    + split; [exact Hline | rewrite Hcur; unfold WIDTH; lia].
    + exact Hnl.
    + rewrite Hcur. reflexivity.
    + rewrite length_take. lia.
    + cbn [mbind option_bind].
      injection Hl1 as Hb1 Hc1 Hn1.
      rewrite length_take, Hlen in Hb1, Hc1.
      change (0 + 40 `min` 41)%nat with 40%nat in *.
      destruct Hline as [Hlen0 Hu0]. rewrite width_nat in Hlen0.
      rewrite (drop_ge (console_buf s)), app_nil_r in Hb1 by lia.
      cbn [take app] in Hb1.
      assert (Hinv1 : line_inv s1).
      { split; [| rewrite Hc1; unfold WIDTH; lia].
        rewrite Hb1. split.
        - rewrite length_take, width_nat. lia.
        - apply Forall_take. eapply Forall_impl; [exact Hcs |].
          intros v [Hv _]. unfold is_u16. lia. }
      destruct (feed_slide e vc (drop 40 cs) Hfg (Forall_drop _ 40%nat _ Hcs) s1
                  Hinv1 Hn1 Hc1) as (s' & -> & Hl').
      exists s'. split; [reflexivity |].
      injection Hl' as Hb' Hc' _. split; [| exact Hc'].
      rewrite Hb', Hb1, take_drop, length_drop, Hlen. reflexivity.
  - destruct (step_wrote_printable e vc c s2 Hfg Hc) as (s' & -> & Hl').
    + split; [exact Hline2 | rewrite Hcur2; unfold WIDTH; lia].
    + exact Hnl2.
    + rewrite decide_True in Hl' by exact Hcur2.
      injection Hl' as Hb' Hc' _.
      exists s'. by repeat split.
Qed.

Lemma sliding_window_witness :
  (exists s',
      run (map (wrote env0 tty1) letters41) blank_state = Some s' /\
      console_buf s' = drop 1 letters41 /\ console_cursor s' = WIDTH) /\
  (exists s',
      step (wrote env0 tty1 (ch "z")) full_state = Some s' /\
      console_buf s' = drop 1 (console_buf full_state) ++ [ch "z"] /\
      console_cursor s' = WIDTH).
Proof.
  apply (sliding_window env0 tty1 blank_state letters41 full_state (ch "z"));
    compute_done.
Defined.

(** C6. From a line with the cursor at 0 and no pending newline, after
    "A", "B" and a newline the line still starts with "AB" (cursor 2, the
    newline flag set); only the "C" that follows clears it: then the line
    is "C" followed by 39 blank cells, with the cursor at 1. *)
Theorem newline_lazy_clear e vc (s : state) :
  vc_num vc = fg_console e ->
  is_line (console_buf s) -> console_cursor s = 0 ->
  console_newline s = false ->
  exists s3 s4,
    run (map (wrote e vc) [ch "A"; ch "B"; ch "010"]) s = Some s3 /\
    console_buf s3 = [ch "A"; ch "B"] ++ drop 2 (console_buf s) /\
    console_cursor s3 = 2 /\ console_newline s3 = true /\
    step (wrote e vc (ch "C")) s3 = Some s4 /\
    run (map (wrote e vc) [ch "A"; ch "B"; ch "010"; ch "C"]) s = Some s4 /\
    console_buf s4 = ch "C" :: replicate 39 0 /\
    console_cursor s4 = 1 /\ console_newline s4 = false.
Proof.
  intros Hfg Hline Hcur Hnl.
  assert (HAB : Forall printable [ch "A"; ch "B"])
    by compute_done.
  destruct (feed_fill e vc [ch "A"; ch "B"] Hfg HAB s 0%nat)
    as (s2 & Hrun2 & Hl2);
    [split; [exact Hline | rewrite Hcur; unfold WIDTH; lia]
    | exact Hnl | by rewrite Hcur | simpl; lia |].
  injection Hl2 as Hb2 Hc2 Hn2. cbn [take app length Nat.add] in Hb2, Hc2.
  assert (Hline2 : is_line (console_buf s2)).
  { destruct Hline as [Hlen Hu]. rewrite width_nat in Hlen.
    rewrite Hb2. split.
    - cbn [length]. rewrite length_drop, width_nat. lia.
    - do 2 (constructor; [compute_done |]).
      by apply Forall_drop. }
  destruct (step_wrote e vc (ch "010") s2 (console_buf s2)
              (console_cursor s2) true Hfg) as (s3 & Hstep3 & Hl3);
    [apply vt_write_char_newline; by left | exact Hline2 |].
  injection Hl3 as Hb3 Hc3 Hn3.
  assert (HC : printable (ch "C")) by compute_done.
  destruct (step_wrote e vc (ch "C") s3
              (<[0%nat := ch "C"]> (memset0 (Z.to_nat WIDTH))) 1 false Hfg)
    as (s4 & Hstep4 & Hl4).
  { change (to_uchar (ch "C")) with (ch "C").
    rewrite (vt_write_char_printable (ch "C") s3 HC).
    - rewrite Hn3. reflexivity.
    - rewrite Hb3. apply Hline2.
    - rewrite Hc3, Hc2. unfold WIDTH. lia. }
  { apply is_line_insert; [apply is_line_memset0 | compute_done]. }
  injection Hl4 as Hb4 Hc4 Hn4.
  assert (Hrun3 : run (map (wrote e vc) [ch "A"; ch "B"; ch "010"]) s
                  = Some s3).
  { change [ch "A"; ch "B"; ch "010"] with ([ch "A"; ch "B"] ++ [ch "010"]).
    rewrite map_app, run_app, Hrun2. cbn [mbind option_bind map run].
    rewrite Hstep3. reflexivity. }
  exists s3, s4.
  split; [exact Hrun3 |].
  split; [by rewrite Hb3, Hb2 |].
  split; [by rewrite Hc3, Hc2 |].
  split; [exact Hn3 |].
  split; [exact Hstep4 |].
  split.
  { change [ch "A"; ch "B"; ch "010"; ch "C"]
      with ([ch "A"; ch "B"; ch "010"] ++ [ch "C"]).
    rewrite map_app, run_app, Hrun3. cbn [mbind option_bind map run].
    rewrite Hstep4. reflexivity. }
  split; [exact Hb4 |]. split; [exact Hc4 | exact Hn4].
Qed.

Lemma newline_lazy_clear_witness :
  exists s3 s4,
    run (map (wrote env0 tty1) [ch "A"; ch "B"; ch "010"]) blank_state
    = Some s3 /\
    console_buf s3 = [ch "A"; ch "B"] ++ drop 2 (console_buf blank_state) /\
    console_cursor s3 = 2 /\ console_newline s3 = true /\
    step (wrote env0 tty1 (ch "C")) s3 = Some s4 /\
    run (map (wrote env0 tty1) [ch "A"; ch "B"; ch "010"; ch "C"]) blank_state
    = Some s4 /\
    console_buf s4 = ch "C" :: replicate 39 0 /\
    console_cursor s4 = 1 /\ console_newline s4 = false.
Proof.
  apply (newline_lazy_clear env0 tty1 blank_state); compute_done.
Defined.

(** ** Claims on the key handling *)

(** The two pan keys, as updates of the state. *)
Lemma handle_vc_key_pan e vc (s : state) :
  console_show s = false -> pan_in_range vc s ->
  let x := vc_view_x s in
  let y := vc_view_y s in
  keyboard_notifier_call e KBD_KEYCODE (key_down vc KEY_LEFT) s
  = Some (NOTIFY_STOP,
          refresh_vc vc
            (if decide (x > 0) then set_vc_view_x (Z.max (x - WIDTH) 0) s
             else if decide (y >= 1)
                  then set_vc_view_x (vc_cols vc - WIDTH)
                         (set_vc_view_y (y - 1) (beep BEEP_HIGH s))
                  else beep BEEP_LOW s)) /\
  keyboard_notifier_call e KBD_KEYCODE (key_down vc KEY_RIGHT) s
  = Some (NOTIFY_STOP,
          refresh_vc vc
            (if decide (x + WIDTH < vc_cols vc) then set_vc_view_x (x + WIDTH) s
             else if decide (y + 1 < vc_rows vc)
                  then set_vc_view_x 0
                         (set_vc_view_y (y + 1) (beep BEEP_HIGH s))
                  else beep BEEP_LOW s)).
Proof.
  intros Hshow (Hx & Hy & Hxw & Hy1 & Hcols) x y. subst x y.
  unfold is_int, INT_MIN, INT_MAX, WIDTH in *.
  unfold keyboard_notifier_call, handle_vc_key, key_down.
  cbn [kp_down kp_vc kp_value negb]. rewrite Hshow. unfold WIDTH.
  split.
  - destruct (decide (vc_view_x s > 0)) as [Hpos | Hnpos].
    + cbn [set_vc_view_x vc_view_x].
      rewrite to_int_id by (unfold is_int, INT_MIN, INT_MAX; lia).
      cbn [mbind option_bind fst snd]. do 3 f_equal.
      case_decide.
      * rewrite Z.max_r by lia. reflexivity.
      * rewrite Z.max_l by lia. reflexivity.
    + destruct (decide (vc_view_y s >= 1)) as [Hy' | Hy'];
        [| reflexivity].
      cbn [mbind option_bind fst snd]. do 3 f_equal.
      unfold beep. destruct (sound s); state_unfold;
        rewrite !to_int_id by (unfold is_int, INT_MIN, INT_MAX; lia);
        reflexivity.
  - rewrite !to_int_id by (unfold is_int, INT_MIN, INT_MAX; lia).
    destruct (decide (vc_view_x s + 40 < vc_cols vc)); [reflexivity |].
    destruct (decide (vc_view_y s + 1 < vc_rows vc)); [| reflexivity].
    cbn [mbind option_bind fst snd]. do 3 f_equal.
    unfold beep. destruct (sound s); state_unfold;
      rewrite !to_int_id by (unfold is_int, INT_MIN, INT_MAX; lia);
      reflexivity.
Qed.


(** C7. While browsing, [KEY_LEFT] moves the viewport left by [WIDTH],
    stopping at 0, when [x > 0]; else wraps to [(cols - WIDTH, y - 1)] with
    the high beep when [y >= 1]; else leaves it and only gives the low beep.
    [KEY_RIGHT] adds [WIDTH] to [x] when [x + WIDTH < cols], with no upper
    clamp; else wraps to [(0, y + 1)] with the high beep when
    [y + 1 < rows]; else leaves it and only gives the low beep. Both keys
    are swallowed ([NOTIFY_STOP]), end with a refresh of the terminal, and
    touch neither the mode nor the line buffer. *)
Theorem pan_left_right e vc (s : state) :
  console_show s = false -> pan_in_range vc s ->
  let x := vc_view_x s in
  let y := vc_view_y s in
  let cue f := if sound s then [kd_mksound f] else [] in
  let refresh := [vc_maybe_cursor_moved vc; vc_refresh vc] in
  exists sl sr,
    keyboard_notifier_call e KBD_KEYCODE (key_down vc KEY_LEFT) s
    = Some (NOTIFY_STOP, sl) /\
    (vc_view_x sl, vc_view_y sl, trace sl)
    = (if decide (x > 0)
       then (Z.max (x - WIDTH) 0, y, trace s ++ refresh)
       else if decide (y >= 1)
            then (vc_cols vc - WIDTH, y - 1,
                  trace s ++ cue BEEP_HIGH ++ refresh)
            else (x, y, trace s ++ cue BEEP_LOW ++ refresh)) /\
    keyboard_notifier_call e KBD_KEYCODE (key_down vc KEY_RIGHT) s
    = Some (NOTIFY_STOP, sr) /\
    (vc_view_x sr, vc_view_y sr, trace sr)
    = (if decide (x + WIDTH < vc_cols vc)
       then (x + WIDTH, y, trace s ++ refresh)
       else if decide (y + 1 < vc_rows vc)
            then (0, y + 1, trace s ++ cue BEEP_HIGH ++ refresh)
            else (x, y, trace s ++ cue BEEP_LOW ++ refresh)) /\
    console_show sl = false /\ console_show sr = false /\
    line_of sl = line_of s /\ line_of sr = line_of s.
Proof.
  intros Hshow Hrange x y cue refresh.
  destruct (handle_vc_key_pan e vc s Hshow Hrange) as [Hl Hr].
  eexists _, _.
  split; [exact Hl |]. split; [| split; [exact Hr |]; split; [| split; [| split; [| split]]]].
  - subst x y cue refresh. repeat case_decide; beep_cases s;
      rewrite <- ?app_assoc; reflexivity.
  - subst x y cue refresh. repeat case_decide; beep_cases s;
      rewrite <- ?app_assoc; reflexivity.
  - repeat case_decide; beep_cases s; exact Hshow.
  - repeat case_decide; beep_cases s; exact Hshow.
  - repeat case_decide; beep_cases s; reflexivity.
  - repeat case_decide; beep_cases s; reflexivity.
Qed.

Lemma pan_left_right_witness :
  let x := vc_view_x browsing_state in
  let y := vc_view_y browsing_state in
  let cue f := if sound browsing_state then [kd_mksound f] else [] in
  let refresh := [vc_maybe_cursor_moved tty1; vc_refresh tty1] in
  exists sl sr,
    keyboard_notifier_call env0 KBD_KEYCODE (key_down tty1 KEY_LEFT)
      browsing_state
    = Some (NOTIFY_STOP, sl) /\
    (vc_view_x sl, vc_view_y sl, trace sl)
    = (if decide (x > 0)
       then (Z.max (x - WIDTH) 0, y, trace browsing_state ++ refresh)
       else if decide (y >= 1)
            then (vc_cols tty1 - WIDTH, y - 1,
                  trace browsing_state ++ cue BEEP_HIGH ++ refresh)
            else (x, y, trace browsing_state ++ cue BEEP_LOW ++ refresh)) /\
    keyboard_notifier_call env0 KBD_KEYCODE (key_down tty1 KEY_RIGHT)
      browsing_state
    = Some (NOTIFY_STOP, sr) /\
    (vc_view_x sr, vc_view_y sr, trace sr)
    = (if decide (x + WIDTH < vc_cols tty1)
       then (x + WIDTH, y, trace browsing_state ++ refresh)
       else if decide (y + 1 < vc_rows tty1)
            then (0, y + 1, trace browsing_state ++ cue BEEP_HIGH ++ refresh)
            else (x, y, trace browsing_state ++ cue BEEP_LOW ++ refresh)) /\
    console_show sl = false /\ console_show sr = false /\
    line_of sl = line_of browsing_state /\
    line_of sr = line_of browsing_state.
Proof.
  apply (pan_left_right env0 tty1 browsing_state).
  - vm_compute. reflexivity.
  - compute_done.
Defined.

(** While browsing, terminal events keep updating the line buffer, but
    reach neither the encoder's cache nor the device. *)
Lemma vt_notifier_call_browsing e code param (s : state) :
  console_show s = false -> line_inv s ->
  exists s',
    vt_notifier_call e code param s = Some (NOTIFY_OK, s') /\
    line_inv s' /\ console_show s' = false /\
    braille_co s' = braille_co s /\
    last_write_buf s' = last_write_buf s /\
    writes (trace s') = writes (trace s).
Proof.
  intros Hshow Hinv. unfold vt_notifier_call. destruct code.
  - case_decide;
      [exists s; split; [reflexivity | split; [exact Hinv | by repeat split]] |].
    destruct (vt_write_char_shape (to_uchar (vp_c param)) s)
      as (buf & cur & nl & -> & Hb & Hc); [| exact Hinv |].
    { unfold to_uchar. apply Z.mod_pos_bound. lia. }
    cbn [mbind option_bind].
    change (console_show (line_upd buf cur nl s)) with (console_show s).
    rewrite Hshow. eexists. split; [reflexivity |].
    unfold line_inv. proj_simpl.
    rewrite !writes_app. cbn [writes omap]. rewrite !app_nil_r.
    split; [by split | by repeat split].
  - rewrite Hshow. eexists. split; [reflexivity |].
    unfold line_inv in *. proj_simpl.
    rewrite !writes_app. cbn [writes omap]. rewrite !app_nil_r.
    split; [exact Hinv | by repeat split].
  - exists s. split; [reflexivity | split; [exact Hinv | by repeat split]].
Qed.

Lemma run_browsing (evs : list event) :
  Forall is_vt evs ->
  forall s, console_show s = false -> line_inv s ->
    exists s',
      run evs s = Some s' /\
      line_inv s' /\ console_show s' = false /\
      braille_co s' = braille_co s /\
      last_write_buf s' = last_write_buf s /\
      writes (trace s') = writes (trace s).
Proof.
  induction 1 as [| ev evs Hev _ IH]; intros s Hshow Hinv; cbn [run].
  - exists s. split; [reflexivity | split; [exact Hinv | by repeat split]].
  - destruct ev as [| e code param]; [destruct Hev |]. cbn [step].
    destruct (vt_notifier_call_browsing e code param s Hshow Hinv)
      as (s1 & -> & Hinv1 & Hshow1 & Hco1 & Hlast1 & Hw1).
    cbn [fmap option_fmap option_map mbind option_bind snd].
    destruct (IH s1 Hshow1 Hinv1)
      as (s' & -> & Hinv' & Hshow' & Hco & Hlast & Hw).
    exists s'. split; [reflexivity |].
    rewrite Hco, Hlast, Hw.
    split; [exact Hinv' | by repeat split].
Qed.

(** C2 (as the code has it). From Following mode with a device bound, the
    trigger key enters Browsing; terminal events that arrive there change
    the line buffer only; the trigger key again returns to Following, resets
    the terminal tracking and hands the then-current line to the encoder
    once. That makes one transport write, of the full frame of that line,
    when the line differs from the one last encoded, and none when it is
    the same. *)
Theorem mode_round_trip e1 e2 vc1 vc2 (s : state) (co : nat)
    (evs : list event) :
  console_show s = true -> braille_co s = Some co -> line_inv s ->
  Forall is_vt evs ->
  exists s1 s2 s3,
    step (press e1 vc1 KEY_INSERT) s = Some s1 /\ console_show s1 = false /\
    run evs s1 = Some s2 /\ console_show s2 = false /\
    step (press e2 vc2 KEY_INSERT) s2 = Some s3 /\
    console_show s3 = true /\ lastVC s3 = -1 /\
    console_buf s3 = console_buf s2 /\
    writes (trace s3)
    = writes (trace s) ++
        (if memcmp_eq (last_write_buf s) (console_buf s2) (Z.to_nat WIDTH)
         then [] else [(co, frame 0 (console_buf s2))]).
Proof.
  intros Hshow Hco Hinv Hevs.
  set (s1 := refresh_vc vc1
               (vc_follow_cursor vc1
                  (beep BEEP_HIGH (set_console_show false s)))).
  assert (Hstep1 : step (press e1 vc1 KEY_INSERT) s = Some s1).
  { cbn [step press]. unfold keyboard_notifier_call, key_down.
    cbn [kp_down kp_vc negb]. rewrite Hshow. reflexivity. }
  assert (Hs1 : line_of s1 = line_of s /\ console_show s1 = false /\
                braille_co s1 = braille_co s /\
                last_write_buf s1 = last_write_buf s /\
                writes (trace s1) = writes (trace s)).
  { subst s1. beep_cases s; rewrite !writes_app; cbn [writes omap];
      rewrite !app_nil_r; by repeat split. }
  clearbody s1.
  destruct Hs1 as (Hl1 & Hshow1 & Hco1 & Hlast1 & Hw1).
  destruct (run_browsing evs Hevs s1 Hshow1 (line_inv_ext _ _ Hl1 Hinv))
    as (s2 & Hrun & Hinv2 & Hshow2 & Hco2 & Hlast2 & Hw2).
  set (t := set_lastVC (-1) (set_console_show true (beep BEEP_MED s2))).
  assert (Ht : console_buf t = console_buf s2 /\
               braille_co t = braille_co s2 /\
               last_write_buf t = last_write_buf s2 /\
               writes (trace t) = writes (trace s2) /\
               console_show t = true /\ lastVC t = -1).
  { subst t. beep_cases s2; rewrite ?writes_app; cbn [writes omap];
      rewrite ?app_nil_r; by repeat split. }
  assert (Hstep2 : step (press e2 vc2 KEY_INSERT) s2
                   = snd <$> (s' ← braille_write (console_buf t) t;
                              Some (NOTIFY_STOP, refresh_vc vc2 s'))).
  { cbn [step press]. unfold keyboard_notifier_call, key_down.
    cbn [kp_down kp_vc negb]. rewrite Hshow2.
    unfold handle_vc_key. cbn [kp_value]. fold t.
    destruct (braille_write (console_buf t) t); reflexivity. }
  clearbody t.
  destruct Ht as (Hbt & Hcot & Hlastt & Hwt & Hshowt & HlastVCt).
  assert (Hlinet : is_line (console_buf t))
    by (rewrite Hbt; exact (proj1 Hinv2)).
  rewrite (braille_write_bound t co (console_buf t)) in Hstep2;
    [| congruence | exact Hlinet].
  rewrite Hlastt, Hbt, Hlast2, Hlast1 in Hstep2.
  cbn [mbind option_bind fmap option_fmap option_map snd] in Hstep2.
  eexists s1, s2, _.
  split; [exact Hstep1 |]. split; [exact Hshow1 |].
  split; [exact Hrun |]. split; [exact Hshow2 |].
  split; [exact Hstep2 |].
  destruct (memcmp_eq (last_write_buf s) (console_buf s2) (Z.to_nat WIDTH));
    proj_simpl; rewrite !writes_app; cbn [writes omap];
    rewrite ?app_nil_r, Hwt, Hw2, Hw1; by repeat split.
Qed.

Lemma mode_round_trip_witness :
  exists s1 s2 s3,
    step (press env0 tty1 KEY_INSERT) typed_state = Some s1 /\
    console_show s1 = false /\
    run [wrote env0 tty1 (ch "B")] s1 = Some s2 /\ console_show s2 = false /\
    step (press env0 tty1 KEY_INSERT) s2 = Some s3 /\
    console_show s3 = true /\ lastVC s3 = -1 /\
    console_buf s3 = console_buf s2 /\
    writes (trace s3)
    = writes (trace typed_state) ++
        (if memcmp_eq (last_write_buf typed_state) (console_buf s2)
              (Z.to_nat WIDTH)
         then [] else [(0%nat, frame 0 (console_buf s2))]).
Proof.
  apply (mode_round_trip env0 env0 tty1 tty1 typed_state 0%nat
           [wrote env0 tty1 (ch "B")]).
  - reflexivity.
  - reflexivity.
  - compute_done.
  - repeat constructor.
Defined.

(** C2, as stated, fails: with "A" on the line and already sent, pressing
    the trigger key twice with no character in between returns to Following
    mode without any transport write. *)
Lemma mode_round_trip_no_resend :
  console_show typed_state = true /\
  braille_co typed_state = Some 0%nat /\
  exists s3,
    run [press env0 tty1 KEY_INSERT; press env0 tty1 KEY_INSERT] typed_state
    = Some s3 /\
    console_show s3 = true /\
    writes (trace s3) = writes (trace typed_state) /\
    length (writes (trace s3)) <> S (length (writes (trace typed_state))).
Proof.
  split; [reflexivity |]. split; [reflexivity |].
  eexists. split; [vm_compute; reflexivity |].
  split; [reflexivity |]. split; [reflexivity |].
  vm_compute. discriminate.
Qed.

(** ** Claims on the device binding *)

(** C8. With a device bound, registering any console fails with
    [-ENODEV] and leaves the whole state as it was: the bound device, the
    console structures (flags and index included) and the trace, so that
    neither the setup callback nor a notifier registration is called. *)
Theorem braille_register_console_conflict (CON_ENABLED ENODEV : Z)
    (s : state) (co console : nat) (index : Z)
    (console_options braille_options : option string) :
  braille_co s = Some co ->
  braille_register_console CON_ENABLED ENODEV console index
    console_options braille_options s
  = Some (- ENODEV, s).
Proof.
  intros Hco. unfold braille_register_console.
  rewrite decide_True by (rewrite Hco; discriminate).
  reflexivity.
Qed.

Lemma braille_register_console_conflict_witness :
  braille_register_console 4 19 1%nat 0 None None bound_state
  = Some (- 19, bound_state).
Proof.
  apply (braille_register_console_conflict 4 19 bound_state 0%nat 1%nat 0
           None None).
  reflexivity.
Defined.

(** ** Calls made while handling events *)

Create HintDb ext.

Lemma ext_refl (s : state) : ext s s.
Proof. exists []. rewrite app_nil_r. by repeat split. Qed.

Lemma call_allowed_ext (s t : state) (c : call) :
  ext s t -> call_allowed t c -> call_allowed s c.
Proof.
  intros (new & _ & _ & Hs & Hco & _). unfold call_allowed.
  rewrite Hs, Hco. tauto.
Qed.

Lemma ext_trans (s t u : state) : ext s t -> ext t u -> ext s u.
Proof.
  intros Hst Htu.
  pose proof Hst as (n1 & Ht1 & Ha1 & Hs1 & Hc1 & Hm1).
  pose proof Htu as (n2 & Ht2 & Ha2 & Hs2 & Hc2 & Hm2).
  exists (n1 ++ n2). rewrite Ht2, Ht1, app_assoc.
  split; [reflexivity |]. split; [| by rewrite Hs2, Hc2, Hm2].
  apply Forall_app. split; [exact Ha1 |].
  eapply Forall_impl; [exact Ha2 |].
  intros c. apply call_allowed_ext, Hst.
Qed.

Lemma ext_emit (s t : state) (c : call) :
  ext s t -> call_allowed s c -> ext s (emit c t).
Proof.
  intros (new & Ht & Ha & Hs & Hc & Hm) Hcall.
  exists (new ++ [c]). proj_simpl. rewrite Ht, app_assoc.
  split; [reflexivity |]. split; [| by repeat split].
  apply Forall_app. split; [exact Ha |]. by constructor.
Qed.

Ltac ext_setter :=
  intros (new & Ht & Ha & Hs & Hc & Hm); exists new; proj_simpl;
  by repeat split.

Lemma ext_set_console_buf s t v : ext s t -> ext s (set_console_buf v t).
Proof. ext_setter. Qed.
Lemma ext_set_console_cursor s t v : ext s t -> ext s (set_console_cursor v t).
Proof. ext_setter. Qed.
Lemma ext_set_vc_view_x s t v : ext s t -> ext s (set_vc_view_x v t).
Proof. ext_setter. Qed.
Lemma ext_set_vc_view_y s t v : ext s t -> ext s (set_vc_view_y v t).
Proof. ext_setter. Qed.
Lemma ext_set_lastvc s t x y : ext s t -> ext s (set_lastvc x y t).
Proof. ext_setter. Qed.
Lemma ext_set_console_show s t v : ext s t -> ext s (set_console_show v t).
Proof. ext_setter. Qed.
Lemma ext_set_console_newline s t v :
  ext s t -> ext s (set_console_newline v t).
Proof. ext_setter. Qed.
Lemma ext_set_lastVC s t v : ext s t -> ext s (set_lastVC v t).
Proof. ext_setter. Qed.
Lemma ext_set_last_write_buf s t v :
  ext s t -> ext s (set_last_write_buf v t).
Proof. ext_setter. Qed.
Lemma ext_line_upd s t b c n : ext s t -> ext s (line_upd b c n t).
Proof. ext_setter. Qed.

Lemma ext_beep (s t : state) (f : Z) :
  f = BEEP_HIGH \/ f = BEEP_MED \/ f = BEEP_LOW ->
  ext s t -> ext s (beep f t).
Proof.
  intros Hf Hst. unfold beep. destruct (sound t) eqn:Hsnd; [| exact Hst].
  apply ext_emit; [exact Hst |].
  destruct Hst as (_ & _ & _ & Hs & _). cbn. rewrite <- Hs. by split.
Qed.

Lemma ext_refresh_vc (s t : state) vc : ext s t -> ext s (refresh_vc vc t).
Proof. intros H. unfold refresh_vc. by do 2 (apply ext_emit; [| exact I]). Qed.

Lemma ext_vc_follow_cursor (s t : state) vc :
  ext s t -> ext s (vc_follow_cursor vc t).
Proof.
  intros H. unfold vc_follow_cursor.
  by apply ext_set_lastvc, ext_set_vc_view_y, ext_set_vc_view_x.
Qed.

#[local] Hint Resolve ext_refl ext_set_console_buf ext_set_console_cursor
  ext_set_vc_view_x ext_set_vc_view_y ext_set_lastvc ext_set_console_show
  ext_set_console_newline ext_set_lastVC ext_set_last_write_buf ext_line_upd
  ext_refresh_vc ext_vc_follow_cursor : ext.

#[local] Hint Extern 1 (ext _ (beep _ _)) =>
  apply ext_beep; [unfold BEEP_HIGH, BEEP_MED, BEEP_LOW; tauto |] : ext.

Lemma ext_braille_write (s t t' : state) (buf : list Z) :
  ext s t -> is_line buf -> braille_write buf t = Some t' -> ext s t'.
Proof.
  intros Hst Hline Hw.
  destruct (braille_write_cases buf t Hline) as [Hc | (co & Hco & _ & Hc)];
    rewrite Hc in Hw; injection Hw as <-; [exact Hst |].
  apply ext_emit; [by apply ext_set_last_write_buf |].
  destruct Hst as (_ & _ & _ & _ & Hco' & _). cbn.
  rewrite <- Hco', Hco. split; [reflexivity |]. by exists buf.
Qed.

Lemma keyboard_notifier_call_ext e code param (s : state) r (s' : state) :
  is_line (console_buf s) ->
  keyboard_notifier_call e code param s = Some (r, s') -> ext s s'.
Proof.
  intros Hline. unfold keyboard_notifier_call.
  destruct (kp_down param); cbn [negb];
    [| intros [= _ <-]; apply ext_refl].
  destruct code; try (intros [= _ <-]; apply ext_refl).
  - destruct (console_show s).
    + unfold handle_console_key.
      case_decide; intros [= _ <-]; auto 10 with ext.
    + unfold handle_vc_key.
      destruct (kp_value param);
        try (repeat case_decide; cbn [mbind option_bind fst snd];
             intros [= _ <-]; auto 10 with ext).
      set (t := set_lastVC (-1) (set_console_show true (beep BEEP_MED s))).
      assert (Hst : ext s t) by (subst t; auto 10 with ext).
      assert (Hlt : console_buf t = console_buf s)
        by (subst t; beep_cases s; reflexivity).
      destruct (braille_write (console_buf t) t) as [t' |] eqn:Hw;
        cbn [mbind option_bind fst snd]; [| discriminate].
      intros [= _ <-]. apply ext_refresh_vc.
      apply (ext_braille_write s t t' (console_buf t) Hst); [| exact Hw].
      rewrite Hlt. exact Hline.
  - repeat case_decide; intros [= _ <-]; auto with ext.
Qed.

Lemma vt_notifier_call_ext e code param (s : state) r (s' : state) :
  line_inv s ->
  vt_notifier_call e code param s = Some (r, s') -> ext s s'.
Proof.
  intros Hinv. unfold vt_notifier_call. destruct code.
  - case_decide; [intros [= _ <-]; apply ext_refl |].
    destruct (vt_write_char_shape (to_uchar (vp_c param)) s)
      as (buf & cur & nl & -> & Hb & Hc); [| exact Hinv |].
    { unfold to_uchar. apply Z.mod_pos_bound. lia. }
    cbn [mbind option_bind].
    change (console_show (line_upd buf cur nl s)) with (console_show s).
    destruct (console_show s).
    + destruct (braille_write _ _) as [t' |] eqn:Hw;
        cbn [mbind option_bind]; [| discriminate].
      intros [= _ <-].
      apply (ext_braille_write s _ t' _ (ext_line_upd s s buf cur nl
                                           (ext_refl s)) Hb Hw).
    + intros [= _ <-]. auto with ext.
  - destruct (console_show s); [| intros [= _ <-]; auto with ext].
    case_decide; [| intros [= _ <-]; apply ext_refl].
    destruct (braille_write _ _) as [t' |] eqn:Hw;
      cbn [mbind option_bind]; [| discriminate].
    intros [= _ <-].
    refine (ext_braille_write s _ t' _ _ is_line_memset0 Hw).
    auto with ext.
  - intros [= _ <-]. apply ext_refl.
Qed.

Lemma step_ext (ev : event) (s s' : state) :
  line_inv s -> step ev s = Some s' -> ext s s'.
Proof.
  intros Hinv. destruct ev as [e code param | e code param]; cbn [step].
  - destruct (keyboard_notifier_call e code param s) as [[r t] |] eqn:Hk;
      [| discriminate].
    intros [= <-].
    exact (keyboard_notifier_call_ext e code param s r t (proj1 Hinv) Hk).
  - destruct (vt_notifier_call e code param s) as [[r t] |] eqn:Hk;
      [| discriminate].
    intros [= <-].
    exact (vt_notifier_call_ext e code param s r t Hinv Hk).
Qed.

Lemma run_ext (evs : list event) :
  forall s s', line_inv s -> run evs s = Some s' -> ext s s'.
Proof.
  induction evs as [| ev evs IH]; intros s s' Hinv; cbn [run].
  - intros [= <-]. apply ext_refl.
  - destruct (step_line_inv ev s Hinv) as (s1 & Hs1 & Hinv1).
    rewrite Hs1. cbn [mbind option_bind]. intros Hrun.
    exact (ext_trans s s1 s' (step_ext ev s s1 Hinv Hs1) (IH s1 s' Hinv1 Hrun)).
Qed.

(** ** Properties of whole event sequences *)

Lemma frame_head_last lo (buf : list Z) :
  head (frame lo buf) = Some STX /\ last (frame lo buf) = Some ETX.
Proof.
  unfold frame. split; [reflexivity |].
  rewrite !app_assoc. apply last_snoc.
Qed.

(** X1. Every transport write made while handling events goes to the bound
    console and carries one whole frame: [STX] first, [ETX] last, between
    [WIDTH + 4] and [2 * WIDTH + 5] bytes. With no console bound, no
    transport write is made. *)
Theorem events_write_whole_frames (evs : list event) (s : state) :
  line_inv s ->
  exists s' new,
    run evs s = Some s' /\ trace s' = trace s ++ new /\
    (forall co d, co_write co d ∈ new ->
       braille_co s = Some co /\
       head d = Some STX /\ last d = Some ETX /\
       WIDTH + 4 <= Z.of_nat (length d) <= 2 * WIDTH + 5) /\
    (braille_co s = None -> writes (trace s') = writes (trace s)).
Proof.
  intros Hinv.
  destruct (run_line_inv evs s Hinv) as (s' & Hrun & _).
  destruct (run_ext evs s s' Hinv Hrun) as (new & Ht & Ha & _).
  exists s', new. split; [exact Hrun |]. split; [exact Ht |].
  assert (Hw : forall co d, co_write co d ∈ new ->
             braille_co s = Some co /\ exists buf, is_line buf /\ d = frame 0 buf).
  { intros co d Hin. rewrite Forall_forall in Ha. exact (Ha _ Hin). }
  split.
  - intros co d Hin. destruct (Hw co d Hin) as (Hco & buf & Hline & ->).
    split; [exact Hco |].
    destruct (frame_head_last 0 buf) as [Hh Hl].
    split; [exact Hh |]. split; [exact Hl |].
    exact (frame_length_bounds 0 buf (proj1 Hline)).
  - intros Hnone. rewrite Ht, writes_app.
    assert (Hnil : writes new = []); [| by rewrite Hnil, app_nil_r].
    clear Ht. induction new as [| c new IH]; [reflexivity |].
    assert (Hrest : writes new = []).
    { apply IH.
      - by inversion Ha.
      - intros co d Hin. apply Hw. by right. }
    destruct c; try exact Hrest.
    destruct (Hw co data) as [Hco _]; [by left | congruence].
Qed.

Lemma events_write_whole_frames_witness :
  exists s' new,
    run session bound_state = Some s' /\
    trace s' = trace bound_state ++ new /\
    (forall co d, co_write co d ∈ new ->
       braille_co bound_state = Some co /\
       head d = Some STX /\ last d = Some ETX /\
       WIDTH + 4 <= Z.of_nat (length d) <= 2 * WIDTH + 5) /\
    (braille_co bound_state = None ->
     writes (trace s') = writes (trace bound_state)).
Proof.
  apply (events_write_whole_frames session bound_state). compute_done.
Defined.

(** X2. With the module parameter [sound] off, handling events never calls
    [kd_mksound]; with it on, the only frequencies are 220, 440 and 880. *)
Theorem events_beep_only_with_sound (evs : list event) (s : state) :
  line_inv s ->
  exists s' new,
    run evs s = Some s' /\ trace s' = trace s ++ new /\
    (forall f, kd_mksound f ∈ new ->
       sound s = true /\ (f = 880 \/ f = 440 \/ f = 220)).
Proof.
  intros Hinv.
  destruct (run_line_inv evs s Hinv) as (s' & Hrun & _).
  destruct (run_ext evs s s' Hinv Hrun) as (new & Ht & Ha & _).
  exists s', new. split; [exact Hrun |]. split; [exact Ht |].
  intros f Hin. rewrite Forall_forall in Ha. exact (Ha _ Hin).
Qed.

Lemma events_beep_only_with_sound_witness :
  exists s' new,
    run session bound_state = Some s' /\
    trace s' = trace bound_state ++ new /\
    (forall f, kd_mksound f ∈ new ->
       sound bound_state = true /\ (f = 880 \/ f = 440 \/ f = 220)).
Proof.
  apply (events_beep_only_with_sound session bound_state). compute_done.
Defined.

(** X3. Handling events never changes which console is bound nor any console
    structure, and never calls a console's setup or (un)registers a
    notifier. *)
Theorem events_keep_binding (evs : list event) (s : state) :
  line_inv s ->
  exists s' new,
    run evs s = Some s' /\ trace s' = trace s ++ new /\
    braille_co s' = braille_co s /\ consoles s' = consoles s /\
    sound s' = sound s /\
    (forall c, c ∈ new ->
       (forall co o, c <> co_setup co o) /\
       c <> register_keyboard_notifier /\ c <> register_vt_notifier /\
       c <> unregister_keyboard_notifier /\ c <> unregister_vt_notifier).
Proof.
  intros Hinv.
  destruct (run_line_inv evs s Hinv) as (s' & Hrun & _).
  destruct (run_ext evs s s' Hinv Hrun) as (new & Ht & Ha & Hs & Hco & Hm).
  exists s', new. repeat (split; [assumption |]).
  intros c Hin. rewrite Forall_forall in Ha. specialize (Ha _ Hin).
  destruct c; cbn in Ha; try destruct Ha; repeat split; try discriminate;
    intros ? ?; discriminate.
Qed.

Lemma events_keep_binding_witness :
  exists s' new,
    run session bound_state = Some s' /\
    trace s' = trace bound_state ++ new /\
    braille_co s' = braille_co bound_state /\
    consoles s' = consoles bound_state /\
    sound s' = sound bound_state /\
    (forall c, c ∈ new ->
       (forall co o, c <> co_setup co o) /\
       c <> register_keyboard_notifier /\ c <> register_vt_notifier /\
       c <> unregister_keyboard_notifier /\ c <> unregister_vt_notifier).
Proof.
  apply (events_keep_binding session bound_state). compute_done.
Defined.

(** ** The wire format *)

Lemma escape_wire_group lo (v : Z) :
  0 <= lo <= 1 -> lo <= v < 256 -> wire_group (escape lo v).
Proof.
  intros Hlo Hv. unfold escape, wire_group. case_decide.
  - right. eexists. split; [reflexivity |].
    rewrite lor_0x40_small by lia. lia.
  - left. eexists. split; [reflexivity |]. lia.
Qed.

Lemma unescape_escape lo (v : Z) (rest : list Z) :
  0 <= lo <= 1 -> lo <= v < 256 ->
  unescape (escape lo v ++ rest) = v :: unescape rest.
Proof.
  intros Hlo Hv. unfold escape. case_decide.
  - cbn [app unescape]. rewrite decide_True by reflexivity.
    f_equal. rewrite lor_0x40_small by lia.
    assert (v = 0 \/ v = 1 \/ v = 2 \/ v = 3 \/ v = 4 \/ v = 5) as Hc by lia.
    destruct Hc as [-> | [-> | [-> | [-> | [-> | ->]]]]]; reflexivity.
  - cbn [app unescape]. rewrite decide_False by (unfold SOH; lia).
    reflexivity.
Qed.

Lemma unescape_cells (chars rest : list Z) :
  Forall (fun v => 1 <= v < 256) chars ->
  unescape (concat (map (escape 1) chars) ++ rest) = chars ++ unescape rest.
Proof.
  induction 1 as [| v chars Hv _ IH]; [reflexivity |].
  cbn [map concat]. rewrite <- app_assoc.
  rewrite unescape_escape by lia. cbn [app]. by rewrite IH.
Qed.

Lemma substituted_cells_range (buf : list Z) :
  Forall is_u16 buf -> Forall (fun v => 1 <= v < 256) (map substituted buf).
Proof.
  intros H. rewrite Forall_map. eapply Forall_impl; [exact H |].
  intros v Hv. exact (substituted_range v Hv).
Qed.

(** Reading a frame back gives the command byte, the substituted cells,
    the checksum and the end marker. *)
Lemma unescape_frame (buf : list Z) :
  Forall is_u16 buf ->
  unescape (frame 0 buf)
  = STX :: ch ">" :: map substituted buf ++ [checksum buf; ETX].
Proof.
  intros Hu. unfold frame. cbn [app unescape].
  rewrite decide_False by discriminate.
  rewrite decide_False by discriminate.
  rewrite unescape_cells by exact (substituted_cells_range buf Hu).
  pose proof (checksum_range buf Hu).
  rewrite unescape_escape by lia. reflexivity.
Qed.

(** What a bound [braille_write] sent, when it sent something. *)
Lemma braille_write_sent (s s' : state) (co : nat) (buf d : list Z) :
  braille_co s = Some co -> is_line buf ->
  braille_write buf s = Some s' -> trace s' = trace s ++ [co_write co d] ->
  d = frame 0 buf.
Proof.
  intros Hco Hline Hw Ht.
  rewrite (braille_write_bound s co buf Hco Hline) in Hw.
  injection Hw as <-. destruct (memcmp_eq _ _ _).
  - apply (f_equal length) in Ht. rewrite length_app in Ht.
    cbn [length] in Ht. lia.
  - cbn [emit trace set_last_write_buf] in Ht.
    apply app_inv_head in Ht. by injection Ht as <-.
Qed.

(** X4. The bytes between the two markers of a frame are 42 data bytes as
    they go over the wire: each one is a byte of [[6, 255]], or [SOH]
    followed by a byte of [[0x40, 0x45]]. The control codes [STX], [ETX],
    [EOT], [ENQ] and 0 therefore never occur inside a frame. *)
Theorem frame_payload_grammar (s s' : state) (co : nat) (buf d : list Z) :
  braille_co s = Some co -> is_line buf ->
  braille_write buf s = Some s' -> trace s' = trace s ++ [co_write co d] ->
  exists groups,
    d = [STX] ++ concat groups ++ [ETX] /\
    length groups = Z.to_nat (WIDTH + 2) /\
    Forall wire_group groups /\
    Forall (fun b => b = SOH \/ 6 <= b < 256) (concat groups).
Proof.
  intros Hco Hline Hw Ht.
  rewrite (braille_write_sent s s' co buf d Hco Hline Hw Ht).
  destruct Hline as [Hlen Hu].
  pose proof (checksum_range buf Hu) as Hcs.
  exists ([ch ">"] :: map (escape 1) (map substituted buf)
            ++ [escape 0 (checksum buf)]).
  assert (Hg : Forall wire_group
                 ([ch ">"] :: map (escape 1) (map substituted buf)
                    ++ [escape 0 (checksum buf)])).
  { constructor.
    - left. exists (ch ">"). split; [reflexivity | compute_done].
    - apply Forall_app. split.
      + rewrite Forall_map.
        eapply Forall_impl; [exact (substituted_cells_range buf Hu) |].
        intros v Hv. cbn beta in Hv. apply escape_wire_group; lia.
      + constructor; [| constructor]. apply escape_wire_group; lia. }
  split; [| split; [| split; [exact Hg |]]].
  - unfold frame. cbn [concat app]. rewrite concat_app. cbn [concat].
    rewrite app_nil_r, <- !app_assoc. reflexivity.
  - cbn [length]. rewrite length_app, !length_map, Hlen. reflexivity.
  - apply Forall_concat. eapply Forall_impl; [exact Hg |].
    intros g [(v & -> & Hv) | (w & -> & Hw')].
    + constructor; [lia | constructor].
    + constructor; [by left |]. constructor; [lia | constructor].
Qed.

Lemma frame_payload_grammar_witness :
  exists groups,
    frame 0 digits_line = [STX] ++ concat groups ++ [ETX] /\
    length groups = Z.to_nat (WIDTH + 2) /\
    Forall wire_group groups /\
    Forall (fun b => b = SOH \/ 6 <= b < 256) (concat groups).
Proof.
  apply (frame_payload_grammar bound_state
           (emit (co_write 0%nat (frame 0 digits_line))
              (set_last_write_buf digits_line bound_state))
           0%nat digits_line (frame 0 digits_line));
    [vm_compute; reflexivity | compute_done
     | vm_compute; reflexivity | vm_compute; reflexivity].
Defined.

(** X5. Two frames with the same bytes come from lines with the same
    substituted cells: the escaping loses nothing. Lines whose cells all lie
    in [[1, 255]] are recovered exactly. *)
Theorem frame_determines_cells (s1 s1' s2 s2' : state) (co1 co2 : nat)
    (b1 b2 d : list Z) :
  braille_co s1 = Some co1 -> is_line b1 ->
  braille_write b1 s1 = Some s1' -> trace s1' = trace s1 ++ [co_write co1 d] ->
  braille_co s2 = Some co2 -> is_line b2 ->
  braille_write b2 s2 = Some s2' -> trace s2' = trace s2 ++ [co_write co2 d] ->
  map substituted b1 = map substituted b2 /\
  unescape d = STX :: ch ">" :: map substituted b1 ++ [checksum b1; ETX] /\
  (Forall (fun v => 1 <= v < 0x100) b1 ->
   Forall (fun v => 1 <= v < 0x100) b2 -> b1 = b2).
Proof.
  intros Hco1 Hl1 Hw1 Ht1 Hco2 Hl2 Hw2 Ht2.
  pose proof (braille_write_sent s1 s1' co1 b1 d Hco1 Hl1 Hw1 Ht1) as Hd1.
  pose proof (braille_write_sent s2 s2' co2 b2 d Hco2 Hl2 Hw2 Ht2) as Hd2.
  pose proof (unescape_frame b1 (proj2 Hl1)) as Hu1.
  pose proof (unescape_frame b2 (proj2 Hl2)) as Hu2.
  rewrite <- Hd1 in Hu1. rewrite <- Hd2, Hu1 in Hu2.
  assert (Hmap : map substituted b1 = map substituted b2).
  { injection Hu2 as Hu2. apply app_inj_1 in Hu2; [by destruct Hu2 |].
    rewrite !length_map. destruct Hl1 as [-> _], Hl2 as [-> _]. reflexivity. }
  split; [exact Hmap |]. split; [exact Hu1 |].
  intros Hr1 Hr2.
  assert (Hid : forall b, Forall (fun v => 1 <= v < 0x100) b ->
                          map substituted b = b).
  { intros b Hb. induction Hb as [| v b Hv _ IH]; [reflexivity |].
    cbn [map]. rewrite IH. f_equal. unfold substituted.
    rewrite decide_False by lia. rewrite decide_False by lia. reflexivity. }
  by rewrite <- (Hid b1 Hr1), <- (Hid b2 Hr2).
Qed.

Lemma frame_determines_cells_witness :
  map substituted digits_line = map substituted digits_line /\
  unescape (frame 0 digits_line)
  = STX :: ch ">" :: map substituted digits_line
      ++ [checksum digits_line; ETX] /\
  (Forall (fun v => 1 <= v < 0x100) digits_line ->
   Forall (fun v => 1 <= v < 0x100) digits_line ->
   digits_line = digits_line).
Proof.
  apply (frame_determines_cells bound_state
           (emit (co_write 0%nat (frame 0 digits_line))
              (set_last_write_buf digits_line bound_state))
           typed_state
           (emit (co_write 0%nat (frame 0 digits_line))
              (set_last_write_buf digits_line typed_state))
           0%nat 0%nat digits_line digits_line (frame 0 digits_line));
    [vm_compute; reflexivity | compute_done
     | vm_compute; reflexivity | vm_compute; reflexivity
     | vm_compute; reflexivity | compute_done
     | vm_compute; reflexivity | vm_compute; reflexivity].
Defined.

(** ** The viewport *)

Ltac int_range := unfold is_int, INT_MIN, INT_MAX, WIDTH in *; lia.

Lemma vc_follow_cursor_places vc (s : state) :
  0 <= state_x vc <= INT_MAX -> is_int (state_y vc) ->
  let s' := vc_follow_cursor vc s in
  vc_view_x s' mod WIDTH = 0 /\
  vc_view_x s' <= state_x vc < vc_view_x s' + WIDTH /\
  vc_view_y s' = state_y vc /\
  lastvc_x s' = state_x vc /\ lastvc_y s' = state_y vc.
Proof.
  intros Hx Hy s'. subst s'. proj_simpl.
  rewrite Z.rem_mod_nonneg by (unfold WIDTH; lia).
  pose proof (Z.mod_pos_bound (state_x vc) WIDTH ltac:(unfold WIDTH; lia)).
  rewrite !to_int_id by int_range.
  split; [| unfold WIDTH in *; lia].
  rewrite Zminus_mod, Z.mod_mod by (unfold WIDTH; lia).
  rewrite Z.sub_diag. reflexivity.
Qed.

(** X6. Entering Browsing mode (the trigger key while Following) and [KEY_HOME]
    (while Browsing) both place the viewport with [vc_follow_cursor]: on the
    cursor's row, at the multiple of [WIDTH] whose window holds the cursor;
    the cursor position is remembered. *)
Theorem follow_cursor_window e vc (s : state) :
  0 <= state_x vc <= INT_MAX -> is_int (state_y vc) ->
  let s' := vc_follow_cursor vc s in
  (vc_view_x s' mod WIDTH = 0 /\
   vc_view_x s' <= state_x vc < vc_view_x s' + WIDTH /\
   vc_view_y s' = state_y vc /\
   lastvc_x s' = state_x vc /\ lastvc_y s' = state_y vc) /\
  (console_show s = true ->
   keyboard_notifier_call e KBD_KEYCODE (key_down vc KEY_INSERT) s
   = Some (NOTIFY_STOP,
           refresh_vc vc
             (vc_follow_cursor vc
                (beep BEEP_HIGH (set_console_show false s))))) /\
  (console_show s = false ->
   keyboard_notifier_call e KBD_KEYCODE (key_down vc KEY_HOME) s
   = Some (NOTIFY_STOP, refresh_vc vc (vc_follow_cursor vc s))).
Proof.
  intros Hx Hy s'. subst s'. split; [| split].
  - exact (vc_follow_cursor_places vc s Hx Hy).
  - intros Hshow. unfold keyboard_notifier_call, key_down.
    cbn [kp_down kp_vc negb]. rewrite Hshow. reflexivity.
  - intros Hshow. unfold keyboard_notifier_call, key_down.
    cbn [kp_down kp_vc negb]. rewrite Hshow. reflexivity.
Qed.

Lemma follow_cursor_window_witness :
  let s' := vc_follow_cursor tty_57_3 bound_state in
  (vc_view_x s' mod WIDTH = 0 /\
   vc_view_x s' <= state_x tty_57_3 < vc_view_x s' + WIDTH /\
   vc_view_y s' = state_y tty_57_3 /\
   lastvc_x s' = state_x tty_57_3 /\ lastvc_y s' = state_y tty_57_3) /\
  (console_show bound_state = true ->
   keyboard_notifier_call env0 KBD_KEYCODE (key_down tty_57_3 KEY_INSERT)
     bound_state
   = Some (NOTIFY_STOP,
           refresh_vc tty_57_3
             (vc_follow_cursor tty_57_3
                (beep BEEP_HIGH (set_console_show false bound_state))))) /\
  (console_show bound_state = false ->
   keyboard_notifier_call env0 KBD_KEYCODE (key_down tty_57_3 KEY_HOME)
     bound_state
   = Some (NOTIFY_STOP,
           refresh_vc tty_57_3 (vc_follow_cursor tty_57_3 bound_state))).
Proof.
  apply (follow_cursor_window env0 tty_57_3 bound_state); compute_done.
Defined.

Lemma braille_write_view (buf : list Z) (s s' : state) :
  is_line buf -> braille_write buf s = Some s' ->
  vc_view_x s' = vc_view_x s /\ vc_view_y s' = vc_view_y s.
Proof.
  intros Hline Hw.
  destruct (braille_write_cases buf s Hline) as [Hc | (co & _ & _ & Hc)];
    rewrite Hc in Hw; injection Hw as <-; by split.
Qed.

(** X7. While browsing a grid at least [WIDTH] columns wide (and small enough
    for [x + WIDTH] not to overflow an [int]), with the terminal's cursor
    on the grid, every key leaves the viewport on the grid. *)
Theorem browsing_keys_keep_viewport e vc (k : keycode) (s : state) :
  console_show s = false -> is_line (console_buf s) ->
  WIDTH <= vc_cols vc <= INT_MAX - WIDTH -> 1 <= vc_rows vc <= INT_MAX ->
  0 <= state_x vc < vc_cols vc -> 0 <= state_y vc < vc_rows vc ->
  viewport_ok vc s ->
  exists r s',
    keyboard_notifier_call e KBD_KEYCODE (key_down vc k) s = Some (r, s') /\
    viewport_ok vc s'.
Proof.
  intros Hshow Hline Hcols Hrows Hcx Hcy [Hvx Hvy].
  unfold keyboard_notifier_call, key_down.
  cbn [kp_down kp_vc negb]. rewrite Hshow.
  unfold handle_vc_key. cbn [kp_value].
  rewrite ?(to_int_id (vc_view_x s + WIDTH)) by int_range.
  rewrite ?(to_int_id (vc_view_y s + 1)) by int_range.
  rewrite ?(to_int_id (vc_view_x s - WIDTH)) by int_range.
  rewrite ?(to_int_id (vc_view_y s - 1)) by int_range.
  rewrite ?(to_int_id (vc_cols vc - WIDTH)) by int_range.
  rewrite ?(to_int_id (vc_rows vc - 1)) by int_range.
  destruct k.
  - set (t := set_lastVC (-1) (set_console_show true (beep BEEP_MED s))).
    assert (Ht : console_buf t = console_buf s /\
                 vc_view_x t = vc_view_x s /\ vc_view_y t = vc_view_y s)
      by (subst t; beep_cases s; by repeat split).
    clearbody t. destruct Ht as (Hb & Hx & Hy).
    destruct (braille_write_frame (console_buf t) t) as (t' & Hw & _);
      [by rewrite Hb |].
    destruct (braille_write_view (console_buf t) t t') as [Hx' Hy'];
      [by rewrite Hb | exact Hw |].
    rewrite Hw. cbn [mbind option_bind fst snd]. eexists _, _.
    split; [reflexivity |]. unfold viewport_ok. proj_simpl.
    rewrite Hx', Hy', Hx, Hy. by split.
  - repeat case_decide; cbn [mbind option_bind fst snd];
      (eexists _, _; split; [reflexivity |]); unfold viewport_ok;
      beep_cases s; try case_decide; proj_simpl;
      rewrite ?to_int_id by int_range; unfold WIDTH in *; lia.
  - repeat case_decide; cbn [mbind option_bind fst snd];
      (eexists _, _; split; [reflexivity |]); unfold viewport_ok;
      beep_cases s; rewrite ?to_int_id by int_range; unfold WIDTH in *; lia.
  - repeat case_decide; cbn [mbind option_bind fst snd];
      (eexists _, _; split; [reflexivity |]); unfold viewport_ok;
      beep_cases s; rewrite ?to_int_id by int_range; unfold WIDTH in *; lia.
  - repeat case_decide; cbn [mbind option_bind fst snd];
      (eexists _, _; split; [reflexivity |]); unfold viewport_ok;
      beep_cases s; rewrite ?to_int_id by int_range; unfold WIDTH in *; lia.
  - cbn [mbind option_bind fst snd]. eexists _, _. split; [reflexivity |].
    destruct (vc_follow_cursor_places vc s) as (Hm & Hw & Hy & _);
      [int_range | int_range |].
    unfold viewport_ok.
    change (vc_view_x (refresh_vc vc (vc_follow_cursor vc s)))
      with (vc_view_x (vc_follow_cursor vc s)).
    change (vc_view_y (refresh_vc vc (vc_follow_cursor vc s)))
      with (vc_view_y (vc_follow_cursor vc s)).
    rewrite Hy. split; [| lia].
    pose proof (Z_div_mod_eq_full (vc_view_x (vc_follow_cursor vc s)) WIDTH)
      as Hdiv.
    rewrite Hm in Hdiv. unfold WIDTH in *. lia.
  - cbn [mbind option_bind fst snd]. eexists _, _. split; [reflexivity |].
    unfold viewport_ok. proj_simpl. unfold WIDTH in *. lia.
  - cbn [mbind option_bind fst snd]. eexists _, _. split; [reflexivity |].
    unfold viewport_ok. proj_simpl. unfold WIDTH in *. lia.
  - cbn [mbind option_bind fst snd]. eexists _, _. split; [reflexivity |].
    unfold viewport_ok. proj_simpl. by split.
Qed.

Lemma browsing_keys_keep_viewport_witness :
  exists r s',
    keyboard_notifier_call env0 KBD_KEYCODE (key_down tty_57_3 KEY_LEFT)
      browsing_state = Some (r, s') /\
    viewport_ok tty_57_3 s'.
Proof.
  apply (browsing_keys_keep_viewport env0 tty_57_3 KEY_LEFT browsing_state);
    compute_done.
Defined.

Ltac key_step Hshow :=
  cbn [step press]; unfold keyboard_notifier_call, key_down;
  cbn [kp_down kp_vc negb]; rewrite Hshow;
  unfold handle_vc_key; cbn [kp_value].

(** X8. While browsing, a pan to the right that was a plain step
    ([x + WIDTH < cols], from [x >= 0]) is undone by a pan to the left,
    whatever the row; and a pan down that was a plain step ([y + 1 < rows],
    from [y >= 0]) is undone by a pan up, whatever the column: the viewport
    is back where it was. *)
Theorem pan_round_trip e vc (s : state) :
  console_show s = false ->
  (0 <= vc_view_x s -> vc_view_x s + WIDTH < vc_cols vc ->
   vc_cols vc <= INT_MAX ->
   exists s',
     run [press e vc KEY_RIGHT; press e vc KEY_LEFT] s = Some s' /\
     vc_view_x s' = vc_view_x s /\ vc_view_y s' = vc_view_y s /\
     console_show s' = false) /\
  (0 <= vc_view_y s -> vc_view_y s + 1 < vc_rows vc ->
   vc_rows vc <= INT_MAX ->
   exists s',
     run [press e vc KEY_DOWN; press e vc KEY_UP] s = Some s' /\
     vc_view_x s' = vc_view_x s /\ vc_view_y s' = vc_view_y s /\
     console_show s' = false).
Proof.
  intros Hshow. split.
  - intros Hx Hright Hcols. cbn [run].
    set (s1 := refresh_vc vc (set_vc_view_x (vc_view_x s + WIDTH) s)).
    assert (H1 : step (press e vc KEY_RIGHT) s = Some s1).
    { key_step Hshow. rewrite to_int_id by int_range.
      rewrite decide_True by exact Hright. reflexivity. }
    rewrite H1. cbn [mbind option_bind].
    assert (Hs1 : console_show s1 = false) by exact Hshow.
    set (s2 := refresh_vc vc (set_vc_view_x (vc_view_x s) s1)).
    assert (H2 : step (press e vc KEY_LEFT) s1 = Some s2).
    { key_step Hs1.
      change (vc_view_x s1) with (vc_view_x s + WIDTH).
      rewrite decide_True by (unfold WIDTH; lia).
      replace (vc_view_x s + WIDTH - WIDTH) with (vc_view_x s) by lia.
      rewrite to_int_id by int_range.
      cbn [set_vc_view_x vc_view_x].
      rewrite decide_False by lia. reflexivity. }
    rewrite H2. cbn [mbind option_bind].
    exists s2. split; [reflexivity |]. by repeat split.
  - intros Hy Hdown Hrows. cbn [run].
    set (s1 := refresh_vc vc (set_vc_view_y (vc_view_y s + 1) s)).
    assert (H1 : step (press e vc KEY_DOWN) s = Some s1).
    { key_step Hshow. rewrite to_int_id by int_range.
      rewrite decide_True by exact Hdown. reflexivity. }
    rewrite H1. cbn [mbind option_bind].
    assert (Hs1 : console_show s1 = false) by exact Hshow.
    set (s2 := refresh_vc vc (set_vc_view_y (vc_view_y s) s1)).
    assert (H2 : step (press e vc KEY_UP) s1 = Some s2).
    { key_step Hs1.
      change (vc_view_y s1) with (vc_view_y s + 1).
      rewrite decide_True by lia.
      replace (vc_view_y s + 1 - 1) with (vc_view_y s) by lia.
      rewrite to_int_id by int_range. reflexivity. }
    rewrite H2. cbn [mbind option_bind].
    exists s2. split; [reflexivity |]. by repeat split.
Qed.

Lemma pan_round_trip_witness :
  (exists s',
      run [press env0 tty1 KEY_RIGHT; press env0 tty1 KEY_LEFT]
        last_row_state = Some s' /\
      vc_view_x s' = vc_view_x last_row_state /\
      vc_view_y s' = vc_view_y last_row_state /\
      console_show s' = false) /\
  (exists s',
      run [press env0 tty1 KEY_DOWN; press env0 tty1 KEY_UP]
        last_page_state = Some s' /\
      vc_view_x s' = vc_view_x last_page_state /\
      vc_view_y s' = vc_view_y last_page_state /\
      console_show s' = false).
Proof.
  split.
  - apply (pan_round_trip env0 tty1 last_row_state); compute_done.
  - apply (pan_round_trip env0 tty1 last_page_state); compute_done.
Defined.

(** X9. A printable character followed by a backspace, on the foreground
    terminal with no newline pending: below the right edge the cursor is
    back where it was and the cell under it holds a space; at the right edge
    the line has slid left by one, its last cell holds a space and the
    cursor stands on it. *)
Theorem write_then_erase e vc (c : Z) (s : state) :
  vc_num vc = fg_console e -> printable c -> line_inv s ->
  console_newline s = false ->
  exists s',
    run [wrote e vc c; wrote e vc (ch "008")] s = Some s' /\
    console_newline s' = false /\
    if decide (console_cursor s = WIDTH)
    then console_buf s' = drop 1 (console_buf s) ++ [ch " "] /\
         console_cursor s' = WIDTH - 1
    else console_buf s'
         = <[Z.to_nat (console_cursor s) := ch " "]> (console_buf s) /\
         console_cursor s' = console_cursor s.
Proof.
  intros Hfg Hp Hinv Hnl. cbn [run].
  destruct (step_wrote_printable e vc c s Hfg Hp Hinv Hnl) as (s1 & -> & Hl1).
  cbn [mbind option_bind].
  pose proof Hinv as [[Hlen Hu] Hcur]. rewrite width_nat in Hlen.
  assert (Hu16 : is_u16 c) by (destruct Hp; unfold is_u16; lia).
  assert (Hs1 : line_inv s1 /\ 0 < console_cursor s1).
  { destruct (decide (console_cursor s = WIDTH));
      injection Hl1 as Hb1 Hc1 _; rewrite Hc1; unfold line_inv; rewrite Hb1, Hc1.
    - split; [| unfold WIDTH; lia].
      split; [by apply is_line_slide | unfold WIDTH; lia].
    - split; [| lia].
      split; [by apply is_line_insert | unfold WIDTH in *; lia]. }
  destruct Hs1 as [Hinv1 Hpos].
  pose proof Hinv1 as [[Hlen1 Hu1] Hcur1].
  destruct (step_wrote e vc (ch "008") s1
              (<[Z.to_nat (console_cursor s1 - 1) := ch " "]> (console_buf s1))
              (console_cursor s1 - 1) (console_newline s1) Hfg)
    as (s2 & -> & Hl2).
  { change (to_uchar (ch "008")) with (ch "008").
    rewrite vt_write_char_backspace by (try exact Hlen1; try exact Hcur1; by left).
    rewrite decide_True by lia. reflexivity. }
  { apply is_line_insert; [by split | compute_done]. }
  cbn [mbind option_bind]. exists s2. split; [reflexivity |].
  injection Hl2 as Hb2 Hc2 Hn2.
  destruct (decide (console_cursor s = WIDTH)) as [Hfull | Hnfull];
    injection Hl1 as Hb1 Hc1 Hn1; rewrite Hb2, Hc2, Hn2, Hb1, Hc1, Hn1.
  - split; [reflexivity |]. split; [| reflexivity].
    change (Z.to_nat (WIDTH - 1)) with 39%nat.
    replace 39%nat with (length (drop 1 (console_buf s)) + 0)%nat
      by (rewrite length_drop; lia).
    rewrite insert_app_r. reflexivity.
  - split; [reflexivity |]. split; [| lia].
    replace (console_cursor s + 1 - 1) with (console_cursor s) by lia.
    apply list_insert_insert_eq.
Qed.

Lemma write_then_erase_witness :
  exists s',
    run [wrote env0 tty1 (ch "y"); wrote env0 tty1 (ch "008")] typed_state
    = Some s' /\
    console_newline s' = false /\
    if decide (console_cursor typed_state = WIDTH)
    then console_buf s' = drop 1 (console_buf typed_state) ++ [ch " "] /\
         console_cursor s' = WIDTH - 1
    else console_buf s'
         = <[Z.to_nat (console_cursor typed_state) := ch " "]>
             (console_buf typed_state) /\
         console_cursor s' = console_cursor typed_state.
Proof.
  apply (write_then_erase env0 tty1 (ch "y") typed_state); compute_done.
Defined.

(** ** The device mirrors the line in Following mode *)

Lemma braille_write_sync (t t' : state) (co : nat) :
  braille_co t = Some co -> is_line (console_buf t) ->
  length (last_write_buf t) = Z.to_nat WIDTH ->
  braille_write (console_buf t) t = Some t' ->
  length (last_write_buf t') = Z.to_nat WIDTH /\
  last_write_buf t' = console_buf t' /\
  console_show t' = console_show t /\ braille_co t' = braille_co t.
Proof.
  intros Hco Hline Hlen Hw.
  rewrite (braille_write_bound t co _ Hco Hline) in Hw. injection Hw as <-.
  rewrite memcmp_eq_full by (try exact Hlen; apply Hline).
  case_bool_decide as Heq.
  - by rewrite Heq in *.
  - proj_simpl. rewrite memcpy_full by (try exact Hlen; apply Hline).
    split; [apply Hline | by repeat split].
Qed.

Lemma in_sync_refresh_vc vc (t : state) :
  in_sync t -> in_sync (refresh_vc vc t).
Proof. intros H. exact H. Qed.

Lemma keyboard_notifier_call_sync e code param (s : state) (co : nat) r s' :
  braille_co s = Some co -> is_line (console_buf s) -> in_sync s ->
  keyboard_notifier_call e code param s = Some (r, s') -> in_sync s'.
Proof.
  intros Hco Hline Hsync. pose proof Hsync as [Hlen _].
  unfold keyboard_notifier_call.
  destruct (kp_down param); cbn [negb]; [| intros [= _ <-]; exact Hsync].
  destruct code; try (intros [= _ <-]; exact Hsync).
  - destruct (console_show s) eqn:Hshow.
    + unfold handle_console_key.
      case_decide; intros [= _ <-]; [| exact Hsync].
      unfold in_sync. beep_cases s; by split.
    + unfold handle_vc_key.
      destruct (kp_value param);
        try (repeat case_decide; cbn [mbind option_bind fst snd];
             intros [= _ <-]; unfold in_sync; beep_cases s;
             rewrite ?Hshow; by split).
      set (t := set_lastVC (-1) (set_console_show true (beep BEEP_MED s))).
      assert (Ht : braille_co t = Some co /\ is_line (console_buf t) /\
                   length (last_write_buf t) = Z.to_nat WIDTH)
        by (subst t; beep_cases s; (split; [| split]); assumption).
      clearbody t. destruct Ht as (Hcot & Hlinet & Hlent).
      destruct (braille_write (console_buf t) t) as [t' |] eqn:Hw;
        cbn [mbind option_bind fst snd]; [| discriminate].
      intros [= _ <-]. apply in_sync_refresh_vc.
      destruct (braille_write_sync t t' co Hcot Hlinet Hlent Hw)
        as (Hl' & Hs' & _).
      by split.
  - repeat case_decide; intros [= _ <-]; try exact Hsync;
      unfold in_sync in *; beep_cases s; exact Hsync.
Qed.

Lemma vt_notifier_call_sync e code param (s : state) (co : nat) r s' :
  braille_co s = Some co -> line_inv s -> in_sync s ->
  vt_notifier_call e code param s = Some (r, s') -> in_sync s'.
Proof.
  intros Hco Hinv Hsync. pose proof Hsync as [Hlen _].
  unfold vt_notifier_call. destruct code.
  - case_decide; [intros [= _ <-]; exact Hsync |].
    destruct (vt_write_char_shape (to_uchar (vp_c param)) s)
      as (buf & cur & nl & -> & Hb & Hc); [| exact Hinv |].
    { unfold to_uchar. apply Z.mod_pos_bound. lia. }
    cbn [mbind option_bind].
    change (console_show (line_upd buf cur nl s)) with (console_show s).
    destruct (console_show s) eqn:Hshow.
    + destruct (braille_write _ _) as [t' |] eqn:Hw;
        cbn [mbind option_bind]; [| discriminate].
      intros [= _ <-].
      destruct (braille_write_sync (line_upd buf cur nl s) t' co Hco Hb Hlen Hw)
        as (Hl' & Hs' & _).
      by split.
    + intros [= _ <-]. unfold in_sync. proj_simpl. rewrite Hshow. by split.
  - destruct (console_show s) eqn:Hshow.
    + case_decide; [| intros [= _ <-]; exact Hsync].
      destruct (braille_write _ _) as [t' |] eqn:Hw;
        cbn [mbind option_bind]; [| discriminate].
      intros [= _ <-].
      destruct (braille_write_sync
                  (set_console_cursor 0
                     (set_console_buf (memset0 (Z.to_nat WIDTH))
                        (set_lastVC (to_int (vc_num (vp_vc param))) s)))
                  t' co Hco is_line_memset0 Hlen Hw)
        as (Hl' & Hs' & _).
      by split.
    + intros [= _ <-]. unfold in_sync. proj_simpl. rewrite Hshow. by split.
  - intros [= _ <-]. exact Hsync.
Qed.

Lemma step_sync (ev : event) (s s' : state) (co : nat) :
  braille_co s = Some co -> line_inv s -> in_sync s ->
  step ev s = Some s' -> in_sync s'.
Proof.
  intros Hco Hinv Hsync.
  destruct ev as [e code param | e code param]; cbn [step].
  - destruct (keyboard_notifier_call e code param s) as [[r t] |] eqn:Hk;
      [| discriminate].
    intros [= <-].
    exact (keyboard_notifier_call_sync e code param s co r t Hco
             (proj1 Hinv) Hsync Hk).
  - destruct (vt_notifier_call e code param s) as [[r t] |] eqn:Hk;
      [| discriminate].
    intros [= <-].
    exact (vt_notifier_call_sync e code param s co r t Hco Hinv Hsync Hk).
Qed.

(** X10. With a console bound, the encoder's cache follows the line buffer
    through every sequence of events: whenever the driver is in Following
    mode, the line last handed to the encoder is the current line. (Right
    after binding, both are all zeros.) *)
Theorem following_mirrors_line (evs : list event) (s : state) (co : nat) :
  braille_co s = Some co -> line_inv s -> in_sync s ->
  exists s',
    run evs s = Some s' /\
    length (last_write_buf s') = Z.to_nat WIDTH /\
    (console_show s' = true -> last_write_buf s' = console_buf s').
Proof.
  revert s. induction evs as [| ev evs IH]; intros s Hco Hinv Hsync; cbn [run].
  - exists s. split; [reflexivity | exact Hsync].
  - destruct (step_line_inv ev s Hinv) as (s1 & Hs1 & Hinv1).
    rewrite Hs1. cbn [mbind option_bind].
    apply IH.
    + destruct (step_ext ev s s1 Hinv Hs1) as (_ & _ & _ & _ & Hco1 & _).
      by rewrite Hco1.
    + exact Hinv1.
    + exact (step_sync ev s s1 co Hco Hinv Hsync Hs1).
Qed.

Lemma following_mirrors_line_witness :
  exists s',
    run session bound_state = Some s' /\
    length (last_write_buf s') = Z.to_nat WIDTH /\
    (console_show s' = true -> last_write_buf s' = console_buf s').
Proof.
  apply (following_mirrors_line session bound_state 0%nat);
    [vm_compute; reflexivity | compute_done | compute_done].
Defined.

(** ** Terminal switches *)

(** X11. In Following mode, [VT_UPDATE] from a terminal other than the one last
    seen empties the line (all zeros, cursor 0, the newline flag as it was)
    and records the terminal; from the terminal last seen it changes
    nothing, so a second [VT_UPDATE] from the same terminal is without
    effect. *)
Theorem vt_update_switch e1 e2 vc (c1 c2 : Z) (s : state) :
  console_show s = true -> is_int (vc_num vc) ->
  exists s1,
    vt_notifier_call e1 VT_UPDATE {| vp_vc := vc; vp_c := c1 |} s
    = Some (NOTIFY_OK, s1) /\
    lastVC s1 = vc_num vc /\
    (vc_num vc <> lastVC s ->
       console_buf s1 = memset0 (Z.to_nat WIDTH) /\ console_cursor s1 = 0 /\
       console_newline s1 = console_newline s) /\
    (vc_num vc = lastVC s -> s1 = s) /\
    vt_notifier_call e2 VT_UPDATE {| vp_vc := vc; vp_c := c2 |} s1
    = Some (NOTIFY_OK, s1).
Proof.
  intros Hshow Hnum. unfold vt_notifier_call. cbn [vp_vc].
  rewrite Hshow. rewrite (to_int_id _ Hnum).
  destruct (decide (vc_num vc ≠ lastVC s)) as [Hne | Heq].
  - set (t := set_console_cursor 0
                (set_console_buf (memset0 (Z.to_nat WIDTH))
                   (set_lastVC (vc_num vc) s))).
    destruct (braille_write_frame (console_buf t) t is_line_memset0)
      as (s1 & Hw & Hl & Hsh & _ & Hlv).
    rewrite Hw. cbn [mbind option_bind]. exists s1.
    split; [reflexivity |]. injection Hl as Hb Hc Hn.
    split; [exact Hlv |]. split; [by intros _ |].
    split; [by intros ? |].
    rewrite Hsh. change (console_show t) with (console_show s).
    rewrite Hshow, Hlv. change (lastVC t) with (vc_num vc).
    rewrite decide_False by (intros H; by apply H). reflexivity.
  - assert (Heq' : vc_num vc = lastVC s) by (destruct (decide (vc_num vc = lastVC s)); [assumption | contradiction]).
    exists s. cbn [mbind option_bind]. split; [reflexivity |].
    split; [by symmetry |]. split; [by intros ? |]. split; [by intros _ |].
    rewrite Hshow, decide_False by exact Heq. reflexivity.
Qed.

Lemma vt_update_switch_witness :
  exists s1,
    vt_notifier_call env0 VT_UPDATE {| vp_vc := tty1; vp_c := 0 |} typed_state
    = Some (NOTIFY_OK, s1) /\
    lastVC s1 = vc_num tty1 /\
    (vc_num tty1 <> lastVC typed_state ->
       console_buf s1 = memset0 (Z.to_nat WIDTH) /\ console_cursor s1 = 0 /\
       console_newline s1 = console_newline typed_state) /\
    (vc_num tty1 = lastVC typed_state -> s1 = typed_state) /\
    vt_notifier_call env0 VT_UPDATE {| vp_vc := tty1; vp_c := 0 |} s1
    = Some (NOTIFY_OK, s1).
Proof.
  apply (vt_update_switch env0 env0 tty1 0 0 typed_state); compute_done.
Defined.

(** ** Keys in Following mode *)

(** X12. In Following mode, key releases and presses of any key but the
    trigger key are all reported as not handled and leave the whole state
    as it is: the driver does not take keys away from the console. *)
Theorem following_keys_pass_through (evs : list event) (s : state) :
  console_show s = true -> Forall ordinary_key evs ->
  run_results evs s = Some (replicate (length evs) NOTIFY_OK, s).
Proof.
  intros Hshow Hevs. induction Hevs as [| ev evs Hev _ IH]; [reflexivity |].
  cbn [run_results length replicate].
  destruct ev as [e code param |]; [| destruct Hev].
  destruct code; try destruct Hev.
  - unfold keyboard_notifier_call. rewrite H. cbn [negb mbind option_bind snd].
    rewrite IH. reflexivity.
  - unfold keyboard_notifier_call, handle_console_key.
    destruct (kp_down param); cbn [negb];
      [rewrite Hshow, decide_False by exact H |];
      cbn [mbind option_bind snd fst]; rewrite IH; reflexivity.
Qed.

Lemma following_keys_pass_through_witness :
  run_results typed_keys typed_state
  = Some (replicate (length typed_keys) NOTIFY_OK, typed_state).
Proof.
  apply (following_keys_pass_through typed_keys typed_state).
  - vm_compute. reflexivity.
  - constructor; [cbn; right; discriminate |].
    constructor; [cbn; right; discriminate |].
    constructor; [cbn; by left | constructor].
Defined.

(** ** Lines that look the same on the device *)

Lemma frame_substituted (b1 b2 : list Z) :
  map substituted b1 = map substituted b2 -> frame 0 b1 = frame 0 b2.
Proof. intros H. unfold frame, checksum. by rewrite H. Qed.

(** X13. The change detection compares the raw cells: two different lines with
    the same substituted cells (zero cells against spaces, or cells above
    [0xFF] against question marks) are both sent, with the very same
    bytes. *)
Theorem same_cells_sent_twice (s : state) (co : nat) (b1 b2 : list Z) :
  braille_co s = Some co -> is_line b1 -> is_line b2 ->
  map substituted b1 = map substituted b2 -> b1 <> b2 ->
  memcmp_eq (last_write_buf s) b1 (Z.to_nat WIDTH) = false ->
  exists s1 s2 d,
    braille_write b1 s = Some s1 /\ braille_write b2 s1 = Some s2 /\
    trace s2 = trace s ++ [co_write co d; co_write co d].
Proof.
  intros Hco Hl1 Hl2 Hmap Hne Hc.
  rewrite (braille_write_bound s co b1 Hco Hl1), Hc.
  eexists _, _, (frame 0 b1). split; [reflexivity |].
  rewrite braille_write_bound with (co := co); [| exact Hco | exact Hl2].
  cbn [last_write_buf emit set_last_write_buf].
  assert (Hc2 : memcmp_eq (memcpy (last_write_buf s) b1 (Z.to_nat WIDTH)) b2
                  (Z.to_nat WIDTH) = false).
  { unfold memcmp_eq, memcpy. apply bool_decide_eq_false_2.
    destruct Hl1 as [Hlen1 _], Hl2 as [Hlen2 _].
    rewrite take_app_le by (rewrite length_take; lia).
    rewrite take_take, Nat.min_id, !take_ge by lia. exact Hne. }
  rewrite Hc2. split; [reflexivity |].
  cbn [trace emit set_last_write_buf].
  rewrite <- app_assoc, (frame_substituted b1 b2 Hmap). reflexivity.
Qed.

Lemma same_cells_sent_twice_witness :
  exists s1 s2 d,
    braille_write spaces_line bound_state = Some s1 /\
    braille_write (memset0 (Z.to_nat WIDTH)) s1 = Some s2 /\
    trace s2 = trace bound_state ++ [co_write 0%nat d; co_write 0%nat d].
Proof.
  apply (same_cells_sent_twice bound_state 0%nat spaces_line
           (memset0 (Z.to_nat WIDTH)));
    [vm_compute; reflexivity | compute_done | compute_done
     | vm_compute; reflexivity | compute_done | vm_compute; reflexivity].
Defined.

(** ** Binding and unbinding *)

Lemma to_short_id (z : Z) : - 2 ^ 15 <= z < 2 ^ 15 -> to_short z = z.
Proof. intros H. unfold to_short. rewrite Z.mod_small; lia. Qed.

Lemma land_lor_same (a b : Z) : Z.land (Z.lor a b) b = b.
Proof.
  apply Z.bits_inj'. intros n _.
  rewrite Z.land_spec, Z.lor_spec.
  destruct (Z.testbit a n), (Z.testbit b n); reflexivity.
Qed.

Lemma braille_register_console_unbound (CON_ENABLED ENODEV : Z) (s : state)
    (dev : nat) (co : console) (index : Z)
    (console_options braille_options : option string) :
  braille_co s = None -> consoles s !! dev = Some co ->
  (forall setup, con_setup co = Some setup ->
     setup (default "57600o8"%string console_options) = 0) ->
  exists s' co',
    braille_register_console CON_ENABLED ENODEV dev index
      console_options braille_options s = Some (1, s') /\
    braille_co s' = Some dev /\
    consoles s' !! dev = Some co' /\
    Z.land (con_flags co') CON_ENABLED = CON_ENABLED /\
    con_flags co' = Z.lor (con_flags co) CON_ENABLED /\
    con_index co' = to_short index /\
    (- 2 ^ 15 <= index < 2 ^ 15 -> con_index co' = index) /\
    (forall other, other <> dev ->
       consoles s' !! other = consoles s !! other) /\
    trace s'
    = trace s
        ++ match con_setup co with
           | Some _ =>
               [co_setup dev (default "57600o8"%string console_options)]
           | None => []
           end
        ++ [register_keyboard_notifier; register_vt_notifier] /\
    line_of s' = line_of s /\ console_show s' = console_show s /\
    last_write_buf s' = last_write_buf s.
Proof.
  intros Hnone Hco Hsetup. unfold braille_register_console.
  rewrite decide_False by (intros H; apply H, Hnone).
  rewrite Hco. cbn [mbind option_bind].
  destruct (con_setup co) as [setup |] eqn:Hs.
  - rewrite (Hsetup setup eq_refl).
    rewrite decide_False by (intros H; by apply H).
    eexists _, _. split; [reflexivity |]. proj_simpl.
    split; [reflexivity |]. split; [apply lookup_insert_eq |].
    cbn [con_flags con_index]. split; [apply land_lor_same |].
    split; [reflexivity |]. split; [reflexivity |].
    split; [apply to_short_id |].
    split; [intros other Hne; by apply lookup_insert_ne |].
    split; [by rewrite <- !app_assoc |]. by repeat split.
  - rewrite decide_False by (intros H; by apply H).
    eexists _, _. split; [reflexivity |]. proj_simpl.
    split; [reflexivity |]. split; [apply lookup_insert_eq |].
    cbn [con_flags con_index]. split; [apply land_lor_same |].
    split; [reflexivity |]. split; [reflexivity |].
    split; [apply to_short_id |].
    split; [intros other Hne; by apply lookup_insert_ne |].
    split; [by rewrite <- !app_assoc |]. by repeat split.
Qed.

(** X14. With nothing bound, registering a console whose setup is absent or
    returns 0 succeeds with result 1: the console becomes the bound one,
    its flags gain the [CON_ENABLED] bits and its index is the argument
    converted to [short] (the argument itself when it fits), no other
    console structure changes, and the calls made are the setup (if any,
    with ["57600o8"] when no options were given) followed by the two
    notifier registrations. The line buffer, the mode and the encoder's
    cache are untouched. *)
Theorem braille_register_console_binds (CON_ENABLED ENODEV : Z) (s : state)
    (dev : nat) (co : console) (index : Z)
    (console_options braille_options : option string) :
  braille_co s = None -> consoles s !! dev = Some co ->
  (forall setup, con_setup co = Some setup ->
     setup (default "57600o8"%string console_options) = 0) ->
  exists s' co',
    braille_register_console CON_ENABLED ENODEV dev index
      console_options braille_options s = Some (1, s') /\
    braille_co s' = Some dev /\
    consoles s' !! dev = Some co' /\
    Z.land (con_flags co') CON_ENABLED = CON_ENABLED /\
    con_flags co' = Z.lor (con_flags co) CON_ENABLED /\
    con_index co' = to_short index /\
    (- 2 ^ 15 <= index < 2 ^ 15 -> con_index co' = index) /\
    (forall other, other <> dev ->
       consoles s' !! other = consoles s !! other) /\
    trace s'
    = trace s
        ++ match con_setup co with
           | Some _ =>
               [co_setup dev (default "57600o8"%string console_options)]
           | None => []
           end
        ++ [register_keyboard_notifier; register_vt_notifier] /\
    line_of s' = line_of s /\ console_show s' = console_show s /\
    last_write_buf s' = last_write_buf s.
Proof.
  exact (braille_register_console_unbound CON_ENABLED ENODEV s dev co index
           console_options braille_options).
Qed.

Lemma braille_register_console_binds_witness :
  exists s' co',
    braille_register_console 4 19 1%nat 7 None None boot_state
    = Some (1, s') /\
    braille_co s' = Some 1%nat /\
    consoles s' !! 1%nat = Some co' /\
    Z.land (con_flags co') 4 = 4 /\
    con_flags co' = Z.lor (con_flags serial1) 4 /\
    con_index co' = to_short 7 /\
    (- 2 ^ 15 <= 7 < 2 ^ 15 -> con_index co' = 7) /\
    (forall other, other <> 1%nat ->
       consoles s' !! other = consoles boot_state !! other) /\
    trace s'
    = trace boot_state
        ++ match con_setup serial1 with
           | Some _ => [co_setup 1%nat (default "57600o8"%string None)]
           | None => []
           end
        ++ [register_keyboard_notifier; register_vt_notifier] /\
    line_of s' = line_of boot_state /\
    console_show s' = console_show boot_state /\
    last_write_buf s' = last_write_buf boot_state.
Proof.
  apply (braille_register_console_binds 4 19 boot_state 1%nat serial1 7
           None None).
  - reflexivity.
  - vm_compute. reflexivity.
  - intros setup [= <-]. reflexivity.
Defined.

(** X15. When the console's setup returns a nonzero code, registration returns
    that code and binds nothing: apart from the recorded setup call the
    state is as before, so no flag is set and no notifier is registered. *)
Theorem braille_register_console_setup_fails (CON_ENABLED ENODEV : Z)
    (s : state) (dev : nat) (co : console) (setup : string -> Z)
    (index : Z) (console_options braille_options : option string) :
  braille_co s = None -> consoles s !! dev = Some co ->
  con_setup co = Some setup ->
  setup (default "57600o8"%string console_options) <> 0 ->
  braille_register_console CON_ENABLED ENODEV dev index
    console_options braille_options s
  = Some (setup (default "57600o8"%string console_options),
          emit (co_setup dev (default "57600o8"%string console_options))
            s).
Proof.
  intros Hnone Hco Hs Hret. unfold braille_register_console.
  rewrite decide_False by (intros H; apply H, Hnone).
  rewrite Hco. cbn [mbind option_bind]. rewrite Hs.
  rewrite decide_True by exact Hret. reflexivity.
Qed.

Lemma braille_register_console_setup_fails_witness :
  braille_register_console 4 19 2%nat 0 None None broken_boot_state
  = Some ((fun _ : string => -19) (default "57600o8"%string None),
          emit (co_setup 2%nat (default "57600o8"%string None))
            broken_boot_state).
Proof.
  apply (braille_register_console_setup_fails 4 19 broken_boot_state 2%nat
           serial_broken (fun _ => -19) 0 None None).
  - reflexivity.
  - vm_compute. reflexivity.
  - reflexivity.
  - discriminate.
Defined.

(** X16. Unregistering any console but the bound one fails with [-EINVAL] and
    changes nothing. Unregistering the bound console returns 1, calls the
    two notifier unregistrations and clears the binding, leaving the
    console structures, the line buffer and the cache as they are; the same
    console can then be registered again. *)
Theorem unregister_then_rebind (CON_ENABLED ENODEV EINVAL : Z) (s : state)
    (dev : nat) (co : console) (index : Z)
    (console_options braille_options : option string) :
  braille_co s = Some dev -> consoles s !! dev = Some co ->
  (forall setup, con_setup co = Some setup ->
     setup (default "57600o8"%string console_options) = 0) ->
  (forall other, other <> Some dev ->
     braille_unregister_console EINVAL other s = (- EINVAL, s)) /\
  exists s1 s2,
    braille_unregister_console EINVAL (Some dev) s = (1, s1) /\
    braille_co s1 = None /\
    trace s1
    = trace s ++ [unregister_keyboard_notifier; unregister_vt_notifier] /\
    consoles s1 = consoles s /\ line_of s1 = line_of s /\
    last_write_buf s1 = last_write_buf s /\
    braille_register_console CON_ENABLED ENODEV dev index
      console_options braille_options s1 = Some (1, s2) /\
    braille_co s2 = Some dev.
Proof.
  intros Hco Hmem Hsetup. split.
  - intros other Hne. unfold braille_unregister_console.
    rewrite decide_True by (rewrite Hco; congruence). reflexivity.
  - unfold braille_unregister_console.
    rewrite decide_False by (intros H; by apply H).
    set (s1 := set_braille_co None
                 (emit unregister_vt_notifier
                    (emit unregister_keyboard_notifier s))).
    destruct (braille_register_console_unbound CON_ENABLED ENODEV s1 dev co
                index console_options braille_options)
      as (s2 & co' & Hreg & Hco2 & _); [reflexivity | exact Hmem | exact Hsetup |].
    exists s1, s2. split; [reflexivity |]. split; [reflexivity |].
    split; [subst s1; proj_simpl; by rewrite <- app_assoc |].
    by repeat split.
Qed.

Lemma unregister_then_rebind_witness :
  (forall other, other <> Some 0%nat ->
     braille_unregister_console 22 other bound_state = (- 22, bound_state)) /\
  exists s1 s2,
    braille_unregister_console 22 (Some 0%nat) bound_state = (1, s1) /\
    braille_co s1 = None /\
    trace s1
    = trace bound_state
        ++ [unregister_keyboard_notifier; unregister_vt_notifier] /\
    consoles s1 = consoles bound_state /\
    line_of s1 = line_of bound_state /\
    last_write_buf s1 = last_write_buf bound_state /\
    braille_register_console 4 19 0%nat 3 None None s1 = Some (1, s2) /\
    braille_co s2 = Some 0%nat.
Proof.
  apply (unregister_then_rebind 4 19 22 bound_state 0%nat
           {| con_flags := 4; con_index := 0; con_setup := None |} 3
           None None).
  - vm_compute. reflexivity.
  - vm_compute. reflexivity.
  - intros setup [=].
Defined.

(** ** Browsing is silent *)

(** X17. While Browsing, terminal events (writes to any terminal, updates)
    keep the line buffer up to date but never reach the device: no
    transport write is made, the encoder's cache is untouched and the mode
    stays Browsing. *)
Theorem browsing_output_is_silent (evs : list event) (s : state) :
  console_show s = false -> line_inv s -> Forall is_vt evs ->
  exists s',
    run evs s = Some s' /\ console_show s' = false /\
    writes (trace s') = writes (trace s) /\
    last_write_buf s' = last_write_buf s /\
    0 <= console_cursor s' <= WIDTH.
Proof.
  intros Hshow Hinv Hevs.
  destruct (run_browsing evs Hevs s Hshow Hinv)
    as (s' & Hrun & Hinv' & Hshow' & _ & Hlast & Hw).
  exists s'. repeat (split; [assumption |]). exact (proj2 Hinv').
Qed.

Lemma browsing_output_is_silent_witness :
  exists s',
    run [wrote env0 tty1 (ch "o"); wrote env0 tty1 (ch "k")] browsing_state
    = Some s' /\
    console_show s' = false /\
    writes (trace s') = writes (trace browsing_state) /\
    last_write_buf s' = last_write_buf browsing_state /\
    0 <= console_cursor s' <= WIDTH.
Proof.
  apply (browsing_output_is_silent
           [wrote env0 tty1 (ch "o"); wrote env0 tty1 (ch "k")]
           browsing_state).
  - vm_compute. reflexivity.
  - compute_done.
  - repeat constructor.
Defined.

(** ** Cells of the line buffer *)

Lemma cell_ok_memset0 : Forall cell_ok (memset0 (Z.to_nat WIDTH)).
Proof. apply Forall_replicate. by left. Qed.

Lemma vt_write_char_cells (c : Z) (s : state) buf cur nl :
  0 <= c < 256 -> line_inv s -> Forall cell_ok (console_buf s) ->
  vt_write_char c s = Some (line_upd buf cur nl s) ->
  Forall cell_ok buf.
Proof.
  intros Hc [[Hlen Hu] Hcur] Hcells.
  assert (Hprint : forall c', printable c' ->
             vt_write_char c' s = Some (line_upd buf cur nl s) ->
             Forall cell_ok buf).
  { intros c' Hp. rewrite (vt_write_char_printable c' s Hp Hlen Hcur).
    assert (Hc' : cell_ok c') by (right; apply Hp).
    assert (Hb : Forall cell_ok (if console_newline s
                                 then memset0 (Z.to_nat WIDTH)
                                 else console_buf s)).
    { destruct (console_newline s); [apply cell_ok_memset0 | exact Hcells]. }
    cbn zeta. case_decide; intros [= <- _ _].
    - apply Forall_app. split; [by apply Forall_drop |].
      by constructor.
    - by apply Forall_insert. }
  destruct (decide (c = ch "008" \/ c = 127)) as [Hbs | Hnbs].
  { rewrite (vt_write_char_backspace c s Hbs Hlen Hcur).
    case_decide.
    - intros [= <- _ _]. apply Forall_insert; [exact Hcells |].
      right. compute_done.
    - rewrite <- (line_upd_id s) at 1. intros [= <- _ _]. exact Hcells. }
  destruct (decide (c = ch "010" \/ c = ch "011" \/ c = ch "012"
                    \/ c = ch "013")) as [Hnl | Hnnl].
  { rewrite (vt_write_char_newline c s Hnl).
    intros [= <- _ _]. exact Hcells. }
  destruct (decide (c = ch "009")) as [-> | Htab].
  { rewrite vt_write_char_tab. apply Hprint. compute_done. }
  destruct (decide (c < 32)) as [Hlt | Hge].
  { rewrite vt_write_char_ignored; [| lia | | exact Htab | exact Hnnl].
    - rewrite <- (line_upd_id s) at 1. intros [= <- _ _]. exact Hcells.
    - intros ->. apply Hnbs. by left. }
  apply Hprint. split; [lia |]. intros ->. apply Hnbs. by right.
Qed.

Lemma step_cells (ev : event) (s s' : state) :
  line_inv s -> Forall cell_ok (console_buf s) ->
  step ev s = Some s' -> Forall cell_ok (console_buf s').
Proof.
  intros Hinv Hcells.
  destruct ev as [e code param | e code param]; cbn [step].
  - destruct (keyboard_notifier_call_line e code param s (proj1 Hinv))
      as (r & t & -> & Hl).
    intros [= <-]. cbn [snd]. injection Hl as -> _ _. exact Hcells.
  - unfold vt_notifier_call. destruct code.
    + case_decide; [intros [= <-]; exact Hcells |].
      assert (Hc : 0 <= to_uchar (vp_c param) < 256)
        by (unfold to_uchar; apply Z.mod_pos_bound; lia).
      destruct (vt_write_char_shape _ s Hc Hinv)
        as (buf & cur & nl & Hw & Hb & _).
      pose proof (vt_write_char_cells _ s buf cur nl Hc Hinv Hcells Hw) as Hok.
      rewrite Hw. cbn [mbind option_bind].
      change (console_show (line_upd buf cur nl s)) with (console_show s).
      destruct (console_show s).
      * destruct (braille_write_frame (console_buf (line_upd buf cur nl s))
                    (line_upd buf cur nl s) Hb) as (t & -> & Hl & _).
        intros [= <-]. injection Hl as -> _ _. exact Hok.
      * intros [= <-]. exact Hok.
    + destruct (console_show s); [| intros [= <-]; exact Hcells].
      case_decide; [| intros [= <-]; exact Hcells].
      edestruct braille_write_frame as (t & -> & Hl & _);
        [apply is_line_memset0 |].
      intros [= <-]. injection Hl as -> _ _. apply cell_ok_memset0.
    + intros [= <-]. exact Hcells.
Qed.

Lemma cells_never_escaped (buf : list Z) :
  Forall cell_ok buf ->
  concat (map (escape 1) (map substituted buf)) = map substituted buf.
Proof.
  induction 1 as [| v buf Hv _ IH]; [reflexivity |].
  cbn [map concat]. rewrite IH.
  assert (He : escape 1 (substituted v) = [substituted v]); [| by rewrite He].
  unfold escape, substituted. destruct Hv as [-> | Hv].
  - reflexivity.
  - repeat case_decide; try reflexivity; ch_eval; change (ch "?") with 63 in *;
      lia.
Qed.

(** X18. From the initial state, through any sequence of events, every cell of
    the line buffer is zero or a character code in [[0x20, 0xFF]]. The
    frame of the line buffer therefore never has an escaped cell: it is the
    two leading bytes, the 40 substituted cells as they are, the checksum
    (one or two bytes) and the end marker, 44 or 45 bytes in all. *)
Theorem console_frames_have_plain_cells (snd : bool)
    (mem : gmap nat console) (co : option nat) (evs : list event) :
  exists s,
    run evs (set_braille_co co (initial_state snd mem)) = Some s /\
    Forall cell_ok (console_buf s) /\
    frame 0 (console_buf s)
    = [STX; ch ">"] ++ map substituted (console_buf s)
        ++ escape 0 (checksum (console_buf s)) ++ [ETX] /\
    44 <= Z.of_nat (length (frame 0 (console_buf s))) <= 45 /\
    forall dev,
      braille_co s = Some dev ->
      braille_write (console_buf s) s
      = Some (if memcmp_eq (last_write_buf s) (console_buf s) (Z.to_nat WIDTH)
              then s
              else emit (co_write dev (frame 0 (console_buf s)))
                     (set_last_write_buf
                        (memcpy (last_write_buf s) (console_buf s)
                           (Z.to_nat WIDTH)) s)).
Proof.
  assert (Hgen : forall evs s,
             line_inv s -> Forall cell_ok (console_buf s) ->
             exists s', run evs s = Some s' /\ line_inv s' /\
                        Forall cell_ok (console_buf s')).
  { clear evs. induction evs as [| ev evs IH]; intros s Hinv Hcells; cbn [run].
    - by exists s.
    - destruct (step_line_inv ev s Hinv) as (s1 & Hs1 & Hinv1).
      rewrite Hs1. cbn [mbind option_bind].
      exact (IH s1 Hinv1 (step_cells ev s s1 Hinv Hcells Hs1)). }
  destruct (Hgen evs _ (line_inv_initial snd mem co) cell_ok_memset0)
    as (s & Hrun & Hinv & Hcells).
  exists s. split; [exact Hrun |]. split; [exact Hcells |].
  assert (Hframe : frame 0 (console_buf s)
                   = [STX; ch ">"] ++ map substituted (console_buf s)
                       ++ escape 0 (checksum (console_buf s)) ++ [ETX]).
  { unfold frame. by rewrite cells_never_escaped. }
  split; [exact Hframe |]. split.
  - rewrite Hframe, !length_app, length_map, (proj1 (proj1 Hinv)), width_nat.
    pose proof (escape_length 0 (checksum (console_buf s))).
    cbn [length]. lia.
  - intros dev Hdev. exact (braille_write_bound s dev _ Hdev (proj1 Hinv)).
Qed.

(** An index that does not fit the console structure's [short] field is
    stored converted: 70000 becomes 4464. *)
Example braille_register_console_index_wraps :
  exists s' co',
    braille_register_console 4 19 1%nat 70000 None None boot_state
    = Some (1, s') /\
    consoles s' !! 1%nat = Some co' /\ con_index co' = 4464.
Proof.
  eexists _, _. split; [vm_compute; reflexivity |].
  split; [vm_compute; reflexivity | reflexivity].
Qed.
